(** * MedScheduler: the slot-allocation core of the Supabase edge functions

    A shallow embedding of the request handlers of the booking agent
    ([get_slots], [book_appointment], [reschedule_appointment],
    [cancel_appointment]), of the questionnaire agent ([submit_response])
    and of the reminder agent ([schedule_reminder]), and of the client side
    of the automatic booking ([automaticBookingWithCrewAI]).

    The store is the relational database behind [supabaseClient]: every table
    is the list of its rows, in stored order.  A PostgREST query is the
    corresponding list operation: [.eq] is a [filter], [.single()] asks for
    exactly one row, [.update(...).eq(...)] rewrites every matching row,
    [.insert] appends a row whose [id] the database generates.  The model
    has no failing connection.  A handler is modelled from the point where
    the caller is authenticated: [user] is [user.id].

    The handlers that write through the booking agent, and
    [submit_response], are given twice.  First over the tables alone: every
    statement takes effect on the rows it names.  This is the order and
    content of the statements a handler sends, which decides what
    concurrent and successive calls can do to one another.  Then, with the
    suffix [_as], as the caller under the row policies and keys of the
    migration, where the database passes over the rows the caller may not
    write and refuses the rows no policy admits.  [schedule_reminder] and
    the listings of responses and reminders are given as the caller
    only. *)

From Stdlib Require Import List String Ascii Bool Arith NArith Lia.
Import ListNotations.
Open Scope string_scope.
Open Scope list_scope.
Open Scope nat_scope.

(** ** Rows *)

(** Primary keys are UUIDs generated by the database; only their equality
    matters, they are numbered here. *)
Definition uuid := nat.

Module Slot.
Record t := mk
  { id : uuid;
    doctor_id : uuid;
    slot_date : string;
    slot_time : string;
    is_available : bool }.

Definition set_is_available (b : bool) (s : t) : t :=
  mk (id s) (doctor_id s) (slot_date s) (slot_time s) b.
End Slot.

Module Appointment.
Inductive status_t := confirmed | pending | cancelled | completed.

Record t := mk
  { id : uuid;
    patient_id : uuid;
    doctor_id : uuid;
    slot_id : uuid;
    appointment_date : string;
    appointment_time : string;
    notes : option string;
    status : status_t }.

Definition set_status (st : status_t) (a : t) : t :=
  mk (id a) (patient_id a) (doctor_id a) (slot_id a)
     (appointment_date a) (appointment_time a) (notes a) st.

Definition set_slot (sid : uuid) (date time : string) (a : t) : t :=
  mk (id a) (patient_id a) (doctor_id a) sid date time (notes a) (status a).

(** The appointments that hold a slot: status confirmed or pending. *)
Definition active (a : t) : bool :=
  match status a with
  | confirmed | pending => true
  | cancelled | completed => false
  end.
End Appointment.

Module Reminder.
Inductive status_t := pending | sent | failed.

Record t := mk
  { id : uuid;
    appointment_id : uuid;
    reminder_type : string;
    scheduled_at : string;
    message : string;
    status : status_t;
    sent_at : option string }.
End Reminder.

(** The answers of a questionnaire: question id and answer text. *)
Definition Json := list (string * string).

Module QuestionnaireResponse.
Record t := mk
  { id : uuid;
    appointment_id : uuid;
    patient_id : uuid;
    questionnaire_id : string;
    responses : Json }.

Definition overwrite (patient : uuid) (answers : Json) (r : t) : t :=
  mk (id r) (appointment_id r) patient (questionnaire_id r) answers.
End QuestionnaireResponse.

(** ** The store *)

Record db := mkdb
  { appointment_slots : list Slot.t;
    appointments : list Appointment.t;
    reminders : list Reminder.t;
    questionnaire_responses : list QuestionnaireResponse.t;
    next_uuid : uuid }.

Definition with_slots (f : list Slot.t -> list Slot.t) (d : db) : db :=
  mkdb (f (appointment_slots d)) (appointments d) (reminders d)
       (questionnaire_responses d) (next_uuid d).

Definition with_appointments
    (f : list Appointment.t -> list Appointment.t) (d : db) : db :=
  mkdb (appointment_slots d) (f (appointments d)) (reminders d)
       (questionnaire_responses d) (next_uuid d).

Definition with_reminders (f : list Reminder.t -> list Reminder.t) (d : db)
    : db :=
  mkdb (appointment_slots d) (appointments d) (f (reminders d))
       (questionnaire_responses d) (next_uuid d).

Definition with_responses
    (f : list QuestionnaireResponse.t -> list QuestionnaireResponse.t)
    (d : db) : db :=
  mkdb (appointment_slots d) (appointments d) (reminders d)
       (f (questionnaire_responses d)) (next_uuid d).

(** The database generates the key of an inserted row. *)
Definition fresh_uuid (d : db) : uuid * db :=
  (next_uuid d,
   mkdb (appointment_slots d) (appointments d) (reminders d)
        (questionnaire_responses d) (S (next_uuid d))).

(** ** Queries *)

(** [.single()]: the row when the query returns exactly one, an error
    otherwise. *)
Definition single {A : Type} (rows : list A) : option A :=
  match rows with
  | [r] => Some r
  | _ => None
  end.

(** [.update(f).eq(...)]: every row that matches is rewritten. *)
Definition update_where {A : Type} (p : A -> bool) (f : A -> A)
    (rows : list A) : list A :=
  map (fun r => if p r then f r else r) rows.

(** ** JavaScript's [||] on an optional string *)

Definition truthy (o : option string) : option string :=
  match o with
  | Some s => if String.eqb s "" then None else Some s
  | None => None
  end.

Definition or_else (o : option string) (dflt : string) : string :=
  match truthy o with
  | Some s => s
  | None => dflt
  end.

(** ** Responses *)

Inductive body :=
| BSlots (slots : list Slot.t)
| BAppointment (appointment : Appointment.t)
| BMessage (message : string)
| BReminder (reminder : Reminder.t) (message : string)
| BResponse (response : QuestionnaireResponse.t) (message : string)
| BFailure (error : string)       (* { success: false, error } *)
| BError (error : string).        (* { error }, from the catch block *)

Record response := mkresp { status : nat; payload : body }.

Definition success (r : response) : bool :=
  match payload r with
  | BFailure _ | BError _ => false
  | _ => true
  end.

Definition ok (b : body) : response := mkresp 200 b.
Definition failure (code : nat) (error : string) : response :=
  mkresp code (BFailure error).

(** The catch block of a handler: an error thrown on the way is answered
    with status 500 and the error's message. *)
Definition thrown (message : string) : response :=
  mkresp 500 (BError message).

(** The store's error when [.single()] does not find exactly one row. *)
Definition not_single_row : string :=
  "JSON object requested, multiple (or no) rows returned".

(** The error taxonomy of the design, read off a response: the two failures
    the handlers produce are recognised by their text, the kinds no handler
    produces by the HTTP status that stands for them. *)
Inductive error_kind :=
| SlotUnavailable | AppointmentNotFound | Forbidden | InvalidTransition
| InternalError.

Definition error_of (r : response) : option error_kind :=
  match payload r with
  | BFailure e =>
      if String.eqb e "Slot no longer available" then Some SlotUnavailable
      else if String.eqb e "Appointment not found" then Some AppointmentNotFound
      else if status r =? 403 then Some Forbidden
      else if status r =? 409 then Some InvalidTransition
      else None
  | BError _ => Some InternalError
  | _ => None
  end.

(** ** Booking agent *)

Record book_payload := mkbook
  { bk_doctor_id : uuid;
    bk_slot_id : uuid;
    bk_appointment_date : string;
    bk_appointment_time : string;
    bk_notes : option string }.

Record reschedule_payload := mkresched
  { rs_appointment_id : uuid;
    rs_new_slot_id : uuid;
    rs_new_date : string;
    rs_new_time : string }.

(** The three statements of [book_appointment], each one round trip to the
    store. *)

(* Check if slot is still available *)
Definition book_check (slot_id : uuid) (d : db) : option Slot.t :=
  single (filter (fun s => (Slot.id s =? slot_id) && Slot.is_available s)
                 (appointment_slots d)).

(* Create appointment *)
Definition book_insert (user : uuid) (p : book_payload) (d : db)
    : Appointment.t * db :=
  let (new_id, d1) := fresh_uuid d in
  let appointment :=
    Appointment.mk new_id user (bk_doctor_id p) (bk_slot_id p)
      (bk_appointment_date p) (bk_appointment_time p)
      (truthy (bk_notes p)) Appointment.confirmed in
  (appointment, with_appointments (fun rows => rows ++ [appointment]) d1).

(** The two writes of the flag, over the table alone; [reserve_as] and
    [release_as] are the writes of a caller. *)

(* Mark slot as unavailable *)
Definition reserve (slot_id : uuid) (d : db) : db :=
  with_slots (update_where (fun s => Slot.id s =? slot_id)
                           (Slot.set_is_available false)) d.

(* Free up the slot *)
Definition release (slot_id : uuid) (d : db) : db :=
  with_slots (update_where (fun s => Slot.id s =? slot_id)
                           (Slot.set_is_available true)) d.

Definition book_appointment (user : uuid) (p : book_payload) (d : db)
    : response * db :=
  match book_check (bk_slot_id p) d with
  | None => (failure 400 "Slot no longer available", d)
  | Some _ =>
      let (appointment, d1) := book_insert user p d in
      let d2 := reserve (bk_slot_id p) d1 in
      (ok (BAppointment appointment), d2)
  end.

(** Verify ownership: the appointment with this id whose patient is the
    caller. *)
Definition owned_appointment (user appointment_id : uuid) (d : db)
    : option Appointment.t :=
  single (filter (fun a => (Appointment.id a =? appointment_id)
                           && (Appointment.patient_id a =? user))
                 (appointments d)).

Definition reschedule_appointment (user : uuid) (p : reschedule_payload)
    (d : db) : response * db :=
  match owned_appointment user (rs_appointment_id p) d with
  | None => (failure 404 "Appointment not found", d)
  | Some appointment =>
      (* Free up old slot *)
      let d1 := release (Appointment.slot_id appointment) d in
      (* Update appointment *)
      let d2 :=
        with_appointments
          (update_where (fun a => Appointment.id a =? rs_appointment_id p)
             (Appointment.set_slot (rs_new_slot_id p) (rs_new_date p)
                                   (rs_new_time p))) d1 in
      match single (filter (fun a => Appointment.id a =? rs_appointment_id p)
                           (appointments d2)) with
      | None => (thrown not_single_row, d2)
      | Some updated =>
          (* Mark new slot as unavailable *)
          let d3 := reserve (rs_new_slot_id p) d2 in
          (ok (BAppointment updated), d3)
      end
  end.

Definition cancel_appointment (user : uuid) (appointment_id : uuid) (d : db)
    : response * db :=
  match owned_appointment user appointment_id d with
  | None => (failure 404 "Appointment not found", d)
  | Some appointment =>
      (* Update status to cancelled *)
      let d1 :=
        with_appointments
          (update_where (fun a => Appointment.id a =? appointment_id)
             (Appointment.set_status Appointment.cancelled)) d in
      (* Free up the slot *)
      let d2 := release (Appointment.slot_id appointment) d1 in
      (ok (BMessage "Appointment cancelled"), d2)
  end.

(** [get_slots]: the available slots from today on, ordered by date then
    time, at most twenty.  [ORDER BY slot_date, slot_time] is a stable sort
    of the stored rows: rows that agree on both columns keep their stored
    order.  The request payload is not read: the listing has no specialty,
    doctor or date filter of its own. *)

(* new Date().toISOString().split('T')[0] *)
Fixpoint iso_date (now : string) : string :=
  match now with
  | EmptyString => EmptyString
  | String c rest =>
      if Ascii.eqb c "T"%char then EmptyString else String c (iso_date rest)
  end.

Definition date_time_leb (a b : Slot.t) : bool :=
  String.ltb (Slot.slot_date a) (Slot.slot_date b)
  || (String.eqb (Slot.slot_date a) (Slot.slot_date b)
      && String.leb (Slot.slot_time a) (Slot.slot_time b)).

Fixpoint insert_by_date_time (x : Slot.t) (rows : list Slot.t) : list Slot.t :=
  match rows with
  | [] => [x]
  | y :: rest =>
      if date_time_leb x y then x :: rows
      else y :: insert_by_date_time x rest
  end.

Definition order_by_date_time (rows : list Slot.t) : list Slot.t :=
  fold_right insert_by_date_time [] rows.

Definition listed (now : string) (s : Slot.t) : bool :=
  Slot.is_available s && String.leb (iso_date now) (Slot.slot_date s).

Definition get_slots (now : string) (d : db) : response * db :=
  (ok (BSlots (firstn 20 (order_by_date_time
                            (filter (listed now) (appointment_slots d))))),
   d).

(** ** Questionnaire agent *)

Record submit_payload := mksubmit
  { sb_appointment_id : uuid;
    sb_questionnaire_id : option string;
    sb_responses : Json }.

Definition conflict_key (appointment_id : uuid) (questionnaire_id : string)
    (r : QuestionnaireResponse.t) : bool :=
  (QuestionnaireResponse.appointment_id r =? appointment_id)
  && String.eqb (QuestionnaireResponse.questionnaire_id r) questionnaire_id.

(** [.upsert(row, { onConflict: 'appointment_id,questionnaire_id' })
    .select()], over the table alone: a stored row with the same pair takes
    the new patient and answers, otherwise the row is inserted; the rows
    written are returned.  [submit_response_as] is the upsert of a
    caller. *)
Definition upsert_response (appointment_id patient : uuid)
    (questionnaire_id : string) (answers : Json) (d : db)
    : list QuestionnaireResponse.t * db :=
  if existsb (conflict_key appointment_id questionnaire_id)
             (questionnaire_responses d)
  then
    let d1 :=
      with_responses
        (update_where (conflict_key appointment_id questionnaire_id)
                      (QuestionnaireResponse.overwrite patient answers)) d in
    (filter (conflict_key appointment_id questionnaire_id)
            (questionnaire_responses d1), d1)
  else
    let (new_id, d1) := fresh_uuid d in
    let row :=
      QuestionnaireResponse.mk new_id appointment_id patient
                               questionnaire_id answers in
    ([row], with_responses (fun rows => rows ++ [row]) d1).

Definition submit_response (user : uuid) (p : submit_payload) (d : db)
    : response * db :=
  (* Verify the appointment belongs to the user *)
  match owned_appointment user (sb_appointment_id p) d with
  | None => (failure 404 "Appointment not found", d)
  | Some _ =>
      (* Save response *)
      let (written, d1) :=
        upsert_response (sb_appointment_id p) user
          (or_else (sb_questionnaire_id p) "default") (sb_responses p) d in
      match single written with
      | None => (thrown not_single_row, d1)
      | Some row =>
          (ok (BResponse row "Your responses have been saved successfully"),
           d1)
      end
  end.

(** ** Reminder agent *)

Record reminder_payload := mkreminder
  { rm_appointment_id : uuid;
    rm_reminder_type : option string;
    rm_scheduled_at : string;
    rm_message : option string }.

(** ** Automatic booking: the client *)

Module CrewAI.
Record AutomaticBookingRequest := mk_request
  { patient_id : uuid;
    patient_name : string;
    preferred_date : option string;
    preferred_time : option string;
    reason : option string;
    preferred_specialty : option string;
    auto_schedule_reminders : option bool;
    auto_send_questionnaire : option bool }.

Record AutomaticResult := mk_result
  { success : bool;
    appointment_id : option uuid;
    reminder_scheduled : option bool;
    questionnaire_sent : option bool;
    agent_results : option string;
    agent_explanation : option string;
    message : string }.

(** The JSON body of the endpoint's answer, as far as the client reads
    it. *)
Record reply := mk_reply
  { r_detail : option string;
    r_error : option string;
    r_message : option string;
    r_appointment_id : option uuid;
    r_reminder_scheduled : option bool;
    r_questionnaire_sent : option bool;
    r_agent_results : option string;
    r_agent_explanation : option string }.

(** What [await fetch(...)] followed by [await response.json()] gives:
    an exception with its message, or [response.ok] and the body. *)
Inductive fetched :=
| Threw (error_message : option string)
| Answered (response_ok : bool) (data : reply).
End CrewAI.

Definition failed_result (message : string) : CrewAI.AutomaticResult :=
  CrewAI.mk_result false None None None None None message.

(** [automaticBookingWithCrewAI], over the transport [post] that stands for
    the POST to /api/crewai/automatic-booking. *)
Definition automaticBookingWithCrewAI {World : Type}
    (post : CrewAI.AutomaticBookingRequest -> World -> CrewAI.fetched * World)
    (request : CrewAI.AutomaticBookingRequest) (w : World)
    : CrewAI.AutomaticResult * World :=
  match post request w with
  | (CrewAI.Threw error_message, w1) =>
      (failed_result
         (or_else error_message "Network error during automatic booking"), w1)
  | (CrewAI.Answered false data, w1) =>
      (failed_result
         (or_else (CrewAI.r_detail data)
            (or_else (CrewAI.r_error data) "Automatic booking failed")), w1)
  | (CrewAI.Answered true data, w1) =>
      (CrewAI.mk_result true
         (CrewAI.r_appointment_id data)
         (CrewAI.r_reminder_scheduled data)
         (CrewAI.r_questionnaire_sent data)
         (CrewAI.r_agent_results data)
         (CrewAI.r_agent_explanation data)
         (or_else (CrewAI.r_message data)
            "Automatic booking successful with CrewAI agents"), w1)
  end.

(** ** Automatic booking: the orchestrator *)

Section Orchestrator.

(** The slot the orchestrator settles on for a request, and the two
    collaborators; each collaborator reports whether it succeeded and
    writes to its own table only. *)
Variable choose_slot :
  CrewAI.AutomaticBookingRequest -> list Slot.t -> option Slot.t.
Variable schedule : uuid -> list Reminder.t -> bool * list Reminder.t.
Variable ensureSent :
  uuid -> list QuestionnaireResponse.t
  -> bool * list QuestionnaireResponse.t.

(** Modelled from the spec: the Slot Allocator's [reserve] of section 4.1
    (the backend's booking agent is not among the sources).  It fails with
    SlotUnavailable when the slot does not exist or its flag is false, and
    otherwise flips the flag and returns the slot for the draft. *)
Definition allocator_reserve (slot_id : uuid) (d : db)
    : option (Slot.t * db) :=
  match filter (fun s => (Slot.id s =? slot_id) && Slot.is_available s)
               (appointment_slots d) with
  | [] => None
  | s :: _ => Some (s, reserve slot_id d)
  end.

(** Modelled from the spec: step 1 of the saga of section 4.3, reserve and
    create the appointment, which is confirmed from its creation
    (section 4.2); the backend's orchestrator is not among the sources. *)
Definition reserve_and_create (request : CrewAI.AutomaticBookingRequest)
    (d : db) : option Appointment.t * db :=
  match choose_slot request (appointment_slots d) with
  | None => (None, d)
  | Some chosen =>
      match allocator_reserve (Slot.id chosen) d with
      | None => (None, d)
      | Some (s, d1) =>
          let (new_id, d2) := fresh_uuid d1 in
          let appointment :=
            Appointment.mk new_id (CrewAI.patient_id request)
              (Slot.doctor_id s) (Slot.id s)
              (Slot.slot_date s) (Slot.slot_time s)
              (truthy (CrewAI.reason request)) Appointment.confirmed in
          (Some appointment,
           with_appointments (fun rows => rows ++ [appointment]) d2)
      end
  end.

(** Modelled from the spec: a flag of the request enables its step
    (section 4.3, "flags to enable step 2 and step 3"). *)
Definition enabled (flag : option bool) : bool :=
  match flag with Some true => true | _ => false end.

(** Modelled from the spec: the endpoint POST /api/crewai/automatic-booking
    (backend/core/orchestrator.py is not among the sources), the saga of
    section 4.3.  Step 1 must succeed, otherwise the call is answered with
    a failure and nothing was created; steps 2 and 3 are best effort, their
    outcome is reported and never undoes step 1. *)
Definition automatic_booking (request : CrewAI.AutomaticBookingRequest)
    (d : db) : CrewAI.fetched * db :=
  match reserve_and_create request d with
  | (None, _) =>
      (CrewAI.Answered false
         (CrewAI.mk_reply (Some "Slot no longer available") None None
                          None None None None None), d)
  | (Some appointment, d1) =>
      let (reminder_ok, d2) :=
        if enabled (CrewAI.auto_schedule_reminders request) then
          let (done, rows) :=
            schedule (Appointment.id appointment) (reminders d1) in
          (done, with_reminders (fun _ => rows) d1)
        else (false, d1) in
      let (questionnaire_ok, d3) :=
        if enabled (CrewAI.auto_send_questionnaire request) then
          let (done, rows) :=
            ensureSent (Appointment.id appointment)
                       (questionnaire_responses d2) in
          (done, with_responses (fun _ => rows) d2)
        else (false, d2) in
      (CrewAI.Answered true
         (CrewAI.mk_reply None None None
            (Some (Appointment.id appointment))
            (Some reminder_ok) (Some questionnaire_ok) None None), d3)
  end.

End Orchestrator.

(** ** Concurrent bookings

    Each statement of a handler is one request to the store, and the store
    serves the requests of concurrent handlers in some order.  A call of
    [book_appointment] in flight is at one of its three statements or has
    returned. *)

Inductive book_pc :=
| AtCheck
| AtInsert
| AtReserve (appointment : Appointment.t)
| Returned (r : response).

Record book_call := mkcall
  { caller : uuid;
    request : book_payload;
    pc : book_pc }.

Definition book_step (c : book_call) (d : db) : book_call * db :=
  match pc c with
  | AtCheck =>
      match book_check (bk_slot_id (request c)) d with
      | None =>
          (mkcall (caller c) (request c)
                  (Returned (failure 400 "Slot no longer available")), d)
      | Some _ => (mkcall (caller c) (request c) AtInsert, d)
      end
  | AtInsert =>
      let (appointment, d1) := book_insert (caller c) (request c) d in
      (mkcall (caller c) (request c) (AtReserve appointment), d1)
  | AtReserve appointment =>
      (mkcall (caller c) (request c) (Returned (ok (BAppointment appointment))),
       reserve (bk_slot_id (request c)) d)
  | Returned _ => (c, d)
  end.

Fixpoint set_nth {A : Type} (i : nat) (x : A) (l : list A) : list A :=
  match l, i with
  | [], _ => []
  | _ :: rest, 0 => x :: rest
  | y :: rest, S j => y :: set_nth j x rest
  end.

(** The store serves the calls in the order of [schedule]: each entry lets
    the call of that index run its next statement. *)
Fixpoint run (schedule : list nat) (calls : list book_call) (d : db)
    : list book_call * db :=
  match schedule with
  | [] => (calls, d)
  | i :: later =>
      match nth_error calls i with
      | None => run later calls d
      | Some c =>
          let (c1, d1) := book_step c d in
          run later (set_nth i c1 calls) d1
      end
  end.

Definition returned_success (c : book_call) : bool :=
  match pc c with
  | Returned r => success r
  | _ => false
  end.

Definition returned_unavailable (c : book_call) : bool :=
  match pc c with
  | Returned r =>
      match error_of r with Some SlotUnavailable => true | _ => false end
  | _ => false
  end.

(** Calls served one after the other, each to its end. *)
Fixpoint book_in_turn (calls : list (uuid * book_payload)) (d : db)
    : list response * db :=
  match calls with
  | [] => ([], d)
  | (user, p) :: later =>
      let (r, d1) := book_appointment user p d in
      let (rs, d2) := book_in_turn later d1 in
      (r :: rs, d2)
  end.

(** ** Invariant I1 *)

(** The appointments that hold a slot: confirmed or pending, with this slot
    as their slot reference. *)
Definition holders (slot_id : uuid) (d : db) : list Appointment.t :=
  filter (fun a => Appointment.active a && (Appointment.slot_id a =? slot_id))
         (appointments d).

(** Every appointment that references the slot, whatever its status. *)
Definition referencing (slot_id : uuid) (d : db) : list Appointment.t :=
  filter (fun a => Appointment.slot_id a =? slot_id) (appointments d).

Definition I1 (d : db) : Prop :=
  forall s, In s (appointment_slots d) ->
    (Slot.is_available s = false <-> List.length (holders (Slot.id s) d) = 1).

Definition I1b (d : db) : bool :=
  forallb (fun s => Bool.eqb (negb (Slot.is_available s))
                             (List.length (holders (Slot.id s) d) =? 1))
          (appointment_slots d).

(** A sharper form of I1 that the bookings maintain: a slot marked
    available has no holder, a slot marked unavailable has exactly one. *)
Definition accounted (d : db) : Prop :=
  forall s, In s (appointment_slots d) ->
    List.length (holders (Slot.id s) d)
    = if Slot.is_available s then 0 else 1.

(** ** Constraints of the store *)

(** The primary key: no two rows of [appointments] share their id. *)
Definition appointment_ids_unique (d : db) : Prop :=
  NoDup (map Appointment.id (appointments d)).

(** The unique constraint behind [onConflict]: at most one stored response
    per appointment and questionnaire. *)
Definition responses_unique (d : db) : Prop :=
  forall appointment_id questionnaire_id,
    List.length (filter (conflict_key appointment_id questionnaire_id)
                        (questionnaire_responses d)) <= 1.

(** * The rest of the handlers *)

From Stdlib Require Import ZArith Permutation Sorted DecimalString.

(** ** Ordered listings *)

(** [.order(column)] and JavaScript's [sort(compare)] are stable sorts: rows
    that the order does not tell apart keep the order they had.  [leb x y]
    says that [x] may come before [y]. *)
Section Ordering.
Context {A : Type} (leb : A -> A -> bool).

Fixpoint insert_by (x : A) (rows : list A) : list A :=
  match rows with
  | [] => [x]
  | y :: rest => if leb x y then x :: rows else y :: insert_by x rest
  end.

Definition sort_by (rows : list A) : list A :=
  fold_right insert_by [] rows.
End Ordering.

(** ** Booking agent: the listing of the caller's appointments *)

(** A questionnaire and its questions. *)
Record question := mkquestion
  { q_id : string;
    q_question : string;
    q_type : string;
    q_required : bool;
    q_min : option nat;
    q_max : option nat }.

Module Questionnaire.
Record t := mk
  { id : string;
    title : string;
    description : option string;
    questions : list question;
    is_active : option bool;
    created_at : option string }.

(* .eq('is_active', true) *)
Definition active (q : t) : bool :=
  match is_active q with Some true => true | _ => false end.
End Questionnaire.

(** What a listing action answers with, beside the bodies above. *)
Inductive listing :=
| LAppointments (appointments : list Appointment.t)
| LQuestionnaire (questionnaire : Questionnaire.t)
| LResponses (responses : list QuestionnaireResponse.t)
| LReminders (reminders : list Reminder.t).

(** The answer of an edge function: the answer of one of the handlers above,
    a listing (status 200, success true), or the empty answer to a CORS
    preflight. *)
Inductive answer :=
| Handled (r : response)
| Listed (l : listing)
| Preflight.

Definition appointment_date_leb (a b : Appointment.t) : bool :=
  String.leb (Appointment.appointment_date a) (Appointment.appointment_date b).

(* .eq('patient_id', user.id).order('appointment_date', { ascending: true }) *)
Definition get_my_appointments (user : uuid) (d : db) : answer * db :=
  (Listed (LAppointments
             (sort_by appointment_date_leb
                (filter (fun a => Appointment.patient_id a =? user)
                        (appointments d)))),
   d).


(** ** Booking agent: the request handler *)

(** The fields a handler of the booking agent reads from the JSON body. *)
Record booking_fields := mkfields
  { f_doctor_id : uuid;
    f_slot_id : uuid;
    f_appointment_date : string;
    f_appointment_time : string;
    f_notes : option string;
    f_appointment_id : uuid;
    f_new_slot_id : uuid;
    f_new_date : string;
    f_new_time : string }.

(** The JSON body of a request: the action and the fields. *)
Record booking_body := mkbody
  { rq_action : string;
    rq_fields : booking_fields }.

(** A request: its method, the user that [auth.getUser()] finds for its
    Authorization header (none when the token is missing or invalid), its
    body when it parses as JSON, and the current time. *)
Record booking_request := mkrequest
  { rq_method : string;
    rq_user : option uuid;
    rq_body : option booking_body;
    rq_now : string }.

(** The message of the error that [req.json()] throws on a body that is not
    JSON; the text is the engine's, that of an empty body stands for it. *)
Definition invalid_json : string := "Unexpected end of JSON input".

Definition book_payload_of (f : booking_fields) : book_payload :=
  mkbook (f_doctor_id f) (f_slot_id f) (f_appointment_date f)
         (f_appointment_time f) (f_notes f).

Definition reschedule_payload_of (f : booking_fields) : reschedule_payload :=
  mkresched (f_appointment_id f) (f_new_slot_id f) (f_new_date f)
            (f_new_time f).

Definition handled (x : response * db) : answer * db :=
  (Handled (fst x), snd x).

Definition booking_agent (rq : booking_request) (d : db) : answer * db :=
  if String.eqb (rq_method rq) "OPTIONS" then (Preflight, d)
  else
    match rq_user rq with
    | None => (Handled (mkresp 401 (BError "Unauthorized")), d)
    | Some user =>
        match rq_body rq with
        | None => (Handled (thrown invalid_json), d)
        | Some b =>
            if String.eqb (rq_action b) "get_slots" then
              handled (get_slots (rq_now rq) d)
            else if String.eqb (rq_action b) "book_appointment" then
              handled (book_appointment user
                         (book_payload_of (rq_fields b)) d)
            else if String.eqb (rq_action b) "reschedule_appointment" then
              handled (reschedule_appointment user
                         (reschedule_payload_of (rq_fields b)) d)
            else if String.eqb (rq_action b) "cancel_appointment" then
              handled (cancel_appointment user
                         (f_appointment_id (rq_fields b)) d)
            else if String.eqb (rq_action b) "get_my_appointments" then
              get_my_appointments user d
            else (Handled (mkresp 400 (BError "Unknown action")), d)
        end
    end.

(** The primary keys of the store were all generated before [next_uuid]. *)
Definition keys_generated (d : db) : Prop :=
  (forall a, In a (appointments d) -> Appointment.id a < next_uuid d)
  /\ (forall r, In r (reminders d) -> Reminder.id r < next_uuid d)
  /\ (forall r, In r (questionnaire_responses d) ->
        QuestionnaireResponse.id r < next_uuid d).


(** ** Questionnaire agent: the questionnaire served *)

(** The questionnaire served when the table has no active one.  It is not a
    row of the table: it has neither an active flag nor a creation time. *)
Definition default_questionnaire : Questionnaire.t :=
  Questionnaire.mk "default" "Pre-Visit Health Questionnaire"
    (Some "Please answer the following questions before your appointment")
    [mkquestion "q1" "What is the primary reason for your visit?" "text"
                true None None;
     mkquestion "q2" "Are you currently taking any medications?" "textarea"
                true None None;
     mkquestion "q3" "Do you have any known allergies?" "textarea"
                true None None;
     mkquestion "q4" "Rate your current pain level (0-10)" "number"
                false (Some 0) (Some 10);
     mkquestion "q5" "Any other symptoms or concerns?" "textarea"
                false None None]
    None None.

(* .order('created_at', { ascending: false }): in descending order the
   database puts the rows without a value first *)
Definition newest_first (a b : Questionnaire.t) : bool :=
  match Questionnaire.created_at a, Questionnaire.created_at b with
  | None, _ => true
  | Some _, None => false
  | Some ta, Some tb => String.leb tb ta
  end.

(** [get_questionnaire] reads the table of questionnaires, which no handler
    writes. *)
Definition get_questionnaire (questionnaires : list Questionnaire.t)
    (questionnaire_id : option string) : answer :=
  match truthy questionnaire_id with
  | Some wanted =>
      (* Get specific questionnaire *)
      match single (filter (fun q => String.eqb (Questionnaire.id q) wanted
                                     && Questionnaire.active q)
                           questionnaires) with
      | None => Handled (thrown not_single_row)
      | Some q => Listed (LQuestionnaire q)
      end
  | None =>
      (* Get all active questionnaires; the most recent one or the default *)
      match sort_by newest_first
              (filter Questionnaire.active questionnaires) with
      | q :: _ => Listed (LQuestionnaire q)
      | [] => Listed (LQuestionnaire default_questionnaire)
      end
  end.

(** ** The API client *)

(* `HTTP ${response.status}` *)
Definition decimal (n : nat) : string :=
  NilZero.string_of_uint (Nat.to_uint n).

(** The body of an answer as [apiRequest] reads it: the [detail] and
    [message] of an error body (when they are text) and the value the body
    stands for.  A body that is not JSON is read as the empty object. *)
Record api_body (T : Type) := mk_api_body
  { api_detail : option string;
    api_message : option string;
    api_value : T }.
Arguments mk_api_body {T}.
Arguments api_detail {T}.
Arguments api_message {T}.
Arguments api_value {T}.

Inductive api_fetched (T : Type) :=
| ApiThrew (error_message : option string)
| ApiAnswered (response_ok : bool) (status : nat)
              (body : option (api_body T)).
Arguments ApiThrew {T}.
Arguments ApiAnswered {T}.

(** What [apiRequest] hands to its caller as [data]: the value of the body,
    or the empty object of a body that is not JSON. *)
Inductive api_data (T : Type) :=
| Value (v : T)
| EmptyObject.
Arguments Value {T}.
Arguments EmptyObject {T}.

Record ApiResponse (T : Type) := mk_api_response
  { data : option (api_data T);
    error : option string }.
Arguments mk_api_response {T}.
Arguments data {T}.
Arguments error {T}.

Definition apiRequest {T : Type} (fetched : api_fetched T) : ApiResponse T :=
  match fetched with
  | ApiThrew error_message =>
      mk_api_response None
        (Some (or_else error_message "Network error occurred"))
  | ApiAnswered false status body =>
      let detail := match body with Some b => api_detail b | None => None end in
      let message :=
        match body with Some b => api_message b | None => None end in
      mk_api_response None
        (Some (or_else detail
                 (or_else message (String.append "HTTP " (decimal status)))))
  | ApiAnswered true _ body =>
      mk_api_response
        (Some (match body with
               | Some b => Value (api_value b)
               | None => EmptyObject
               end))
        None
  end.

(** [triggerCrewAIAgentsForAppointment], over the transport [post] that
    stands for the POST to /api/crewai/trigger-agents; [operations] is the
    list the caller passes, if any. *)
Definition default_operations : list string := ["reminder"; "questionnaire"].

Definition triggerCrewAIAgentsForAppointment {World : Type}
    (post : string -> list string -> World -> CrewAI.fetched * World)
    (appointmentId : string) (operations : option (list string)) (w : World)
    : CrewAI.AutomaticResult * World :=
  let sent :=
    match operations with Some ops => ops | None => default_operations end in
  match post appointmentId sent w with
  | (CrewAI.Threw error_message, w1) =>
      (failed_result (or_else error_message "Network error"), w1)
  | (CrewAI.Answered false data, w1) =>
      (failed_result
         (or_else (CrewAI.r_detail data)
            (or_else (CrewAI.r_error data) "Failed to trigger agents")), w1)
  | (CrewAI.Answered true data, w1) =>
      (CrewAI.mk_result true None None None
         (CrewAI.r_agent_results data) None
         (or_else (CrewAI.r_message data)
            "CrewAI agents triggered successfully"), w1)
  end.

(** ** Analytics *)

(* `${n}` for an integer n *)
Definition show (n : Z) : string := NilZero.string_of_int (Z.to_int n).

(** [formatTimeAgo(date)], called at time [now]; both are times in
    milliseconds, as [getTime()] gives them.  For times less than 2^53
    milliseconds apart the arithmetic of JavaScript numbers is exact, and
    [Math.floor] of a quotient is the quotient of [Z]. *)
Definition formatTimeAgo (now date : Z) : string :=
  let seconds := ((now - date) / 1000)%Z in
  if (seconds <? 60)%Z then String.append (show seconds) " seconds ago"
  else
    let minutes := (seconds / 60)%Z in
    if (minutes <? 60)%Z then
      String.append (show minutes)
        (String.append " minute"
           (String.append (if (minutes >? 1)%Z then "s" else "") " ago"))
    else
      let hours := (minutes / 60)%Z in
      if (hours <? 24)%Z then
        String.append (show hours)
          (String.append " hour"
             (String.append (if (hours >? 1)%Z then "s" else "") " ago"))
      else
        let days := (hours / 24)%Z in
        String.append (show days)
          (String.append " day"
             (String.append (if (days >? 1)%Z then "s" else "") " ago")).

(** The counts behind the metrics of the analytics function.  The creation
    time of a row is a column that the database fills in; [since] is the
    time thirty days before the request, as [toISOString()] writes it. *)
Section Metrics.
Variable appointment_created_at : Appointment.t -> string.
Variable reminder_created_at : Reminder.t -> string.

(* .gte('created_at', thirtyDaysAgo.toISOString()) *)
Definition recent_appointment (since : string) (a : Appointment.t) : bool :=
  String.leb since (appointment_created_at a).

Definition recent_reminder (since : string) (r : Reminder.t) : bool :=
  String.leb since (reminder_created_at r).

Definition totalBookings (d : db) : nat := List.length (appointments d).

Definition recentBookings (since : string) (d : db) : nat :=
  List.length (filter (recent_appointment since) (appointments d)).

(* new Set(activePatients?.map(a => a.patient_id)).size *)
Definition uniquePatients (since : string) (d : db) : nat :=
  List.length
    (nodup Nat.eq_dec
       (map Appointment.patient_id
            (filter (recent_appointment since) (appointments d)))).

Definition is_cancelled (a : Appointment.t) : bool :=
  match Appointment.status a with
  | Appointment.cancelled => true
  | _ => false
  end.

Definition cancellations (since : string) (d : db) : nat :=
  List.length
    (filter (fun a => is_cancelled a && recent_appointment since a)
            (appointments d)).

Definition totalReminders (since : string) (d : db) : nat :=
  List.length (filter (recent_reminder since) (reminders d)).

Definition is_sent (r : Reminder.t) : bool :=
  match Reminder.status r with
  | Reminder.sent => true
  | _ => false
  end.

Definition sentReminders (since : string) (d : db) : nat :=
  List.length
    (filter (fun r => is_sent r && recent_reminder since r) (reminders d)).
End Metrics.

(** ** Patient dashboard: the contact shown for a reminder *)

(* reminderDetails.contact_info ||
   (patient_email ? `Email: ${patient_email}` : "") +
   (patient_phone ? `${patient_email ? " | " : ""}Phone: ${patient_phone}` : "")
   || "Not provided" *)
Definition contactInfo (contact_info patient_email patient_phone
                        : option string) : string :=
  or_else contact_info
    (or_else
       (Some (String.append
                (match truthy patient_email with
                 | Some e => String.append "Email: " e
                 | None => ""
                 end)
                (match truthy patient_phone with
                 | Some p =>
                     String.append
                       (match truthy patient_email with
                        | Some _ => " | "
                        | None => ""
                        end)
                       (String.append "Phone: " p)
                 | None => ""
                 end)))
       "Not provided").

(** ** Patient dashboard: the next appointment *)

(** An appointment as the backend's /api/appointments lists it, as far as
    the dashboard reads it. *)
Module ApiAppointment.
Record t := mk
  { id : string;
    patient_id : string;
    patient_name : string;
    date : string;
    time : option string;
    status : string }.
End ApiAppointment.

Section Dashboard.

(** [new Date(text).getTime()]: the time in milliseconds that the browser
    reads in a text, nothing when the date is invalid (NaN). *)
Variable getTime : string -> option Z.

(* new Date(apt.date + " " + (apt.time || "00:00")) *)
Definition appointment_time (a : ApiAppointment.t) : option Z :=
  getTime (String.append (ApiAppointment.date a)
             (String.append " " (or_else (ApiAppointment.time a) "00:00"))).

(** An appointment whose date and time the browser can read. *)
Definition dated (a : ApiAppointment.t) : Prop :=
  appointment_time a <> None.

Definition is_confirmed (a : ApiAppointment.t) : bool :=
  String.eqb (ApiAppointment.status a) "confirmed".

(** The comparison the dashboard sorts with: confirmed appointments first,
    then by date and time; nothing stands for NaN. *)
Definition compare_appointments (a b : ApiAppointment.t) : option Z :=
  if is_confirmed a && negb (is_confirmed b) then Some (-1)%Z
  else if negb (is_confirmed a) && is_confirmed b then Some 1%Z
  else
    match appointment_time a, appointment_time b with
    | Some ta, Some tb => Some (ta - tb)%Z
    | _, _ => None
    end.

(** [sort] puts [a] before [b] when the comparison is negative and keeps
    their order when it is zero or NaN. *)
Definition comes_first (a b : ApiAppointment.t) : bool :=
  match compare_appointments a b with
  | Some v => (v <=? 0)%Z
  | None => true
  end.

(* appointments.filter(apt => apt.patient_id === user.id ||
                              apt.patient_name === user.full_name) *)
Definition userAppointments (user : option (string * string))
    (appointments : list ApiAppointment.t) : list ApiAppointment.t :=
  match user with
  | Some (user_id, full_name) =>
      filter (fun a => String.eqb (ApiAppointment.patient_id a) user_id
                       || String.eqb (ApiAppointment.patient_name a) full_name)
             appointments
  | None => appointments
  end.

Definition sortedAppointments (user : option (string * string))
    (appointments : list ApiAppointment.t) : list ApiAppointment.t :=
  sort_by comes_first (userAppointments user appointments).

(* aptDate >= new Date() *)
Definition is_upcoming (now : Z) (a : ApiAppointment.t) : bool :=
  is_confirmed a
  && match appointment_time a with
     | Some t => (now <=? t)%Z
     | None => false
     end.

(** The appointment of the "Next Appointment" card: the first confirmed
    appointment that is not in the past, or else the first of the sorted
    list; none when the list is empty. *)
Definition upcomingAppointment (now : Z) (user : option (string * string))
    (appointments : list ApiAppointment.t) : option ApiAppointment.t :=
  match find (is_upcoming now) (sortedAppointments user appointments) with
  | Some a => Some a
  | None => hd_error (sortedAppointments user appointments)
  end.

End Dashboard.

(** ** The database schema: roles *)

Inductive app_role := role_patient | role_doctor | role_admin.

Definition app_role_eqb (a b : app_role) : bool :=
  match a, b with
  | role_patient, role_patient
  | role_doctor, role_doctor
  | role_admin, role_admin => true
  | _, _ => false
  end.

Record user_role := mk_user_role
  { ur_user_id : uuid;
    ur_role : app_role }.

Record profile := mk_profile
  { pf_id : uuid;
    pf_full_name : option string }.

(* SELECT EXISTS (SELECT 1 FROM public.user_roles
                  WHERE user_id = _user_id AND role = _role) *)
Definition has_role (user_roles : list user_role) (_user_id : uuid)
    (_role : app_role) : bool :=
  existsb (fun r => (ur_user_id r =? _user_id) && app_role_eqb (ur_role r) _role)
          user_roles.

(** The trigger [handle_new_user], run after a user is inserted: it inserts
    the profile and the default role.  An insert that breaks the primary key
    of [profiles] or the unique constraint of [user_roles] fails, and the
    sign-up with it. *)
Definition handle_new_user (new_id : uuid) (full_name : option string)
    (profiles : list profile) (user_roles : list user_role)
    : option (list profile * list user_role) :=
  if existsb (fun p => pf_id p =? new_id) profiles then None
  else if has_role user_roles new_id role_patient then None
  else Some (profiles ++ [mk_profile new_id full_name],
             user_roles ++ [mk_user_role new_id role_patient]).

(** ** The database schema: row policies and keys

    Row level security is enabled on every table, and the edge functions of
    the booking, questionnaire and reminder agents query with the caller's
    token: a statement reads and writes only the rows its policies admit for
    [auth.uid()], the caller.  A [SELECT] or [UPDATE] passes over the rows
    that no policy admits; an [INSERT], and the update of an upsert, is an
    error when no policy admits the row.  A row whose foreign key names no
    row is an error as well. *)

Module Doctor.
Record t := mk
  { id : uuid;
    user_id : uuid;
    specialty : string }.
End Doctor.

(** The text of a UUID as the database prints it: thirty-two hexadecimal
    digits in groups of eight, four, four, four and twelve, set apart by
    hyphens. *)
Definition is_hex (c : ascii) : bool :=
  let n := nat_of_ascii c in
  ((48 <=? n) && (n <=? 57)) || ((97 <=? n) && (n <=? 102))
  || ((65 <=? n) && (n <=? 70)).

Fixpoint hex_group (digits : nat) (text : string) : option string :=
  match digits, text with
  | 0, _ => Some text
  | S k, String c rest => if is_hex c then hex_group k rest else None
  | S _, EmptyString => None
  end.

Definition hyphen_then (digits : nat) (text : option string)
    : option string :=
  match text with
  | Some (String c rest) =>
      if Ascii.eqb c "-"%char then hex_group digits rest else None
  | _ => None
  end.

Definition is_uuid (text : string) : bool :=
  match hyphen_then 12 (hyphen_then 4 (hyphen_then 4 (hyphen_then 4
          (hex_group 8 text)))) with
  | Some EmptyString => true
  | _ => false
  end.

(** The column [id] of [questionnaires] is a UUID. *)
Definition questionnaire_ids_are_uuids (questionnaires : list Questionnaire.t)
    : Prop :=
  forall q, In q questionnaires -> is_uuid (Questionnaire.id q) = true.

Section Policies.
Variable doctors : list Doctor.t.

(** The table of the questionnaires, which no handler writes. *)
Variable questionnaires : list Questionnaire.t.

(** The creation time of a reminder, a column that the database fills in
    and that the listings order by. *)
Variable created_at : Reminder.t -> string.

(** The message of the database's error for a statement on a table that no
    policy admits. *)
Variable policy_violation : string -> string.

(** The message of the database's error for a row whose foreign key, named
    by its constraint, references no row; for a key of type UUID also when
    the text is no UUID. *)
Variable key_violation : string -> string.

(* doctor_id IN (SELECT id FROM public.doctors WHERE user_id = auth.uid()) *)
Definition is_doctor (uid doctor_id : uuid) : bool :=
  existsb (fun dr => (Doctor.id dr =? doctor_id) && (Doctor.user_id dr =? uid))
          doctors.

(** "Doctors can manage their own slots", the only policy that admits a
    write to [appointment_slots]. *)
Definition slot_writable (uid : uuid) (s : Slot.t) : bool :=
  is_doctor uid (Slot.doctor_id s).

(** "Patients can view their own appointments" and "Doctors can view their
    appointments". *)
Definition appointment_visible (uid : uuid) (a : Appointment.t) : bool :=
  (uid =? Appointment.patient_id a) || is_doctor uid (Appointment.doctor_id a).

(** "Patients can update their own appointments", the only policy that
    admits a write to a row of [appointments]. *)
Definition appointment_writable (uid : uuid) (a : Appointment.t) : bool :=
  uid =? Appointment.patient_id a.

(** The write of the flag by [book_appointment], as the caller [uid]. *)
Definition reserve_as (uid slot_id : uuid) (d : db) : db :=
  with_slots (update_where (fun s => (Slot.id s =? slot_id)
                                     && slot_writable uid s)
                           (Slot.set_is_available false)) d.

(** The write of the flag by [cancel_appointment] and
    [reschedule_appointment], as the caller [uid]. *)
(* Free up the slot *)
Definition release_as (uid slot_id : uuid) (d : db) : db :=
  with_slots (update_where (fun s => (Slot.id s =? slot_id)
                                     && slot_writable uid s)
                           (Slot.set_is_available true)) d.

(** [book_appointment] under the policies: everyone can view the slots
    ("Everyone can view available slots"); the appointment passes "Patients
    can create appointments", its patient being the caller, and is returned
    to the caller, who can view it; the flag is written where the caller
    may write. *)
Definition book_appointment_as (user : uuid) (p : book_payload) (d : db)
    : response * db :=
  match book_check (bk_slot_id p) d with
  | None => (failure 400 "Slot no longer available", d)
  | Some _ =>
      let (appointment, d1) := book_insert user p d in
      let d2 := reserve_as user (bk_slot_id p) d1 in
      (ok (BAppointment appointment), d2)
  end.

(** [cancel_appointment] under the policies: the lookup asks for the
    caller's own appointment, which the caller can view and update; the
    flag of the slot is written where the caller may write. *)
Definition cancel_appointment_as (user : uuid) (appointment_id : uuid)
    (d : db) : response * db :=
  match owned_appointment user appointment_id d with
  | None => (failure 404 "Appointment not found", d)
  | Some appointment =>
      (* Update status to cancelled *)
      let d1 :=
        with_appointments
          (update_where (fun a => (Appointment.id a =? appointment_id)
                                  && appointment_writable user a)
             (Appointment.set_status Appointment.cancelled)) d in
      (* Free up the slot *)
      let d2 := release_as user (Appointment.slot_id appointment) d1 in
      (ok (BMessage "Appointment cancelled"), d2)
  end.

(** [reschedule_appointment] under the policies and keys: the old slot is
    freed where the caller may write; the update of the appointment is
    refused when the new slot id names no slot ([slot_id] references
    [appointment_slots]), and the error is thrown after the old slot was
    freed; the flag of the new slot is written where the caller may
    write. *)
Definition reschedule_appointment_as (user : uuid) (p : reschedule_payload)
    (d : db) : response * db :=
  match owned_appointment user (rs_appointment_id p) d with
  | None => (failure 404 "Appointment not found", d)
  | Some appointment =>
      (* Free up old slot *)
      let d1 := release_as user (Appointment.slot_id appointment) d in
      (* Update appointment *)
      if existsb (fun s => Slot.id s =? rs_new_slot_id p)
                 (appointment_slots d1)
      then
        let d2 :=
          with_appointments
            (update_where (fun a => (Appointment.id a =? rs_appointment_id p)
                                    && appointment_writable user a)
               (Appointment.set_slot (rs_new_slot_id p) (rs_new_date p)
                                     (rs_new_time p))) d1 in
        match single (filter (fun a => (Appointment.id a =? rs_appointment_id p)
                                       && appointment_writable user a)
                             (appointments d2)) with
        | None => (thrown not_single_row, d2)
        | Some updated =>
            (* Mark new slot as unavailable *)
            let d3 := reserve_as user (rs_new_slot_id p) d2 in
            (ok (BAppointment updated), d3)
        end
      else (thrown (key_violation "appointments_slot_id_fkey"), d1)
  end.

(** [schedule_reminder] under the policies: the appointment is found when
    the caller can view it; [reminders] has policies for [SELECT] only, so
    the insert is refused and the error thrown. *)
Definition schedule_reminder_as (now : string) (user : uuid)
    (p : reminder_payload) (d : db) : response * db :=
  match single (filter (fun a => (Appointment.id a =? rm_appointment_id p)
                                 && appointment_visible user a)
                       (appointments d)) with
  | None => (failure 404 "Appointment not found", d)
  | Some _ => (thrown (policy_violation "reminders"), d)
  end.

(** [submit_response] under the policies and keys: the patient can view the
    appointment; [questionnaire_id] references [questionnaires], so the
    upsert is refused when the text names no questionnaire;
    [questionnaire_responses] has no policy for [UPDATE], so it is refused
    when the pair already has a response; a new response passes "Patients
    can submit responses", its patient being the caller. *)
Definition submit_response_as (user : uuid) (p : submit_payload) (d : db)
    : response * db :=
  match owned_appointment user (sb_appointment_id p) d with
  | None => (failure 404 "Appointment not found", d)
  | Some _ =>
      let questionnaire_id := or_else (sb_questionnaire_id p) "default" in
      if negb (existsb (fun q => String.eqb (Questionnaire.id q)
                                            questionnaire_id)
                       questionnaires)
      then
        (thrown (key_violation "questionnaire_responses_questionnaire_id_fkey"),
         d)
      else if existsb (conflict_key (sb_appointment_id p) questionnaire_id)
                      (questionnaire_responses d)
      then (thrown (policy_violation "questionnaire_responses"), d)
      else
        let (written, d1) :=
          upsert_response (sb_appointment_id p) user questionnaire_id
                          (sb_responses p) d in
        match single written with
        | None => (thrown not_single_row, d1)
        | Some row =>
            (ok (BResponse row "Your responses have been saved successfully"),
             d1)
        end
  end.







End Policies.

(** ** Automatic booking: the slot the orchestrator selects *)





Definition reminders_of (x : answer * db) : list Reminder.t :=
  match fst x with
  | Listed (LReminders rows) => rows
  | _ => []
  end.

(** ** The booking dialog *)

(** A slot as the backend's /api/slots lists it, as far as the dialog reads
    it. *)
Module ApiSlot.
Record t := mk
  { doctor_id : option string;
    doctor_name : string;
    specialty : option string;
    date : string;
    time : string;
    is_available : option bool }.
End ApiSlot.

(** [text.split(separator)] for a separator that is not empty: the pieces
    of [text] between the occurrences of the separator, found from the
    left.  [skip] counts the characters of an occurrence still to pass. *)
Fixpoint split_skip (separator : string) (skip : nat) (text : string)
    : list string :=
  match text with
  | EmptyString => [EmptyString]
  | String c rest =>
      match skip with
      | S k => split_skip separator k rest
      | 0 =>
          if String.prefix separator text then
            EmptyString :: split_skip separator (String.length separator - 1) rest
          else
            match split_skip separator 0 rest with
            | piece :: pieces => String c piece :: pieces
            | [] => [String c EmptyString]
            end
      end
  end.

Definition split (separator text : string) : list string :=
  split_skip separator 0 text.

(* `${slot.doctor_name} - ${slot.specialty || "General"}` *)
Definition doctor_label (s : ApiSlot.t) : string :=
  String.append (ApiSlot.doctor_name s)
    (String.append " - " (or_else (ApiSlot.specialty s) "General")).

(** What [handleSubmit] makes of the doctor and time chosen in the dialog:
    the slot it books, or nothing when it reports "Selected slot not
    found". *)
(* const [doctorName, specialty] = doctor.split(" - ");
   slots.find(s => s.doctor_name === doctorName && s.time === time) *)
Definition chosen_slot (slots : list ApiSlot.t) (doctor time : string)
    : option ApiSlot.t :=
  match split " - " doctor with
  | doctorName :: _ =>
      find (fun s => String.eqb (ApiSlot.doctor_name s) doctorName
                     && String.eqb (ApiSlot.time s) time) slots
  | [] => None
  end.

(** The specialty [handleSubmit] sends with the booking. *)
(* specialty || "General" *)
Definition chosen_specialty (doctor : string) : string :=
  match split " - " doctor with
  | _ :: specialty :: _ => or_else (Some specialty) "General"
  | _ => "General"
  end.

(** A text without hyphen. *)
Fixpoint no_hyphen (text : string) : bool :=
  match text with
  | EmptyString => true
  | String c rest => negb (Ascii.eqb c "-"%char) && no_hyphen rest
  end.

(** [self.filter((x, index) => self.indexOf(x) === index)]: an element is
    kept where none before it is equal to it.  [seen] holds the elements
    passed so far. *)
Fixpoint first_occurrences (seen texts : list string) : list string :=
  match texts with
  | [] => []
  | x :: rest =>
      if existsb (String.eqb x) seen then first_occurrences seen rest
      else x :: first_occurrences (x :: seen) rest
  end.

(** The times offered for the chosen doctor and date; [date] is the chosen
    day as [toISOString] prints it, when one is chosen.  [sort()] without
    comparison orders texts by their code units, which for the ASCII texts
    of the times is the order of [String.leb]. *)
Definition availableTimes (slots : list ApiSlot.t) (doctor : string)
    (date : option string) : list string :=
  sort_by String.leb
    (first_occurrences []
       (map ApiSlot.time
          (filter
             (fun slot =>
                (* if (!doctor) return true; *)
                if String.eqb doctor "" then true else
                  let matchesDoctor :=
                    match split " - " doctor with
                    | doctorName :: _ =>
                        String.eqb (ApiSlot.doctor_name slot) doctorName
                    | [] => false
                    end in
                  let matchesDate :=
                    match date with
                    | None => true
                    | Some selectedDateString =>
                        String.eqb (ApiSlot.date slot) selectedDateString
                    end in
                  matchesDoctor && matchesDate)
             slots))).

(** [text.padStart(length, pad)] for a pad of one character. *)
Definition padStart (length : nat) (pad : ascii) (text : string) : string :=
  String.append
    (string_of_list_ascii (repeat pad (length - String.length text))) text.

(** The day sent with a booking, from the local year, month (counted from
    zero) and day of the month of the chosen date. *)
(* const yyyy = date.getFullYear();
   const mm = String(date.getMonth() + 1).padStart(2, '0');
   const dd = String(date.getDate()).padStart(2, '0');
   const dateString = `${yyyy}-${mm}-${dd}`; *)
Definition dateString (getFullYear getMonth getDate : nat) : string :=
  let yyyy := getFullYear in
  let mm := padStart 2 "0" (decimal (getMonth + 1)) in
  let dd := padStart 2 "0" (decimal getDate) in
  String.append (decimal yyyy)
    (String.append "-" (String.append mm (String.append "-" dd))).

(** * Stores and requests used as examples *)

Definition slot_nine : Slot.t := Slot.mk 1 7 "2026-01-10" "09:00:00" true.

Definition one_free_slot : db := mkdb [slot_nine] [] [] [] 100.

Definition wants_slot_nine : book_payload :=
  mkbook 7 1 "2026-01-10" "09:00:00" None.

Definition two_callers : list book_call :=
  [mkcall 11 wants_slot_nine AtCheck; mkcall 12 wants_slot_nine AtCheck].


(** Two slots, booked by two patients: appointment 100 of patient 11 holds
    slot 1, appointment 101 of patient 12 holds slot 2. *)
Definition slot_ten : Slot.t := Slot.mk 2 8 "2026-01-10" "10:00:00" true.

Definition two_free_slots : db := mkdb [slot_nine; slot_ten] [] [] [] 100.

Definition wants_slot_ten : book_payload :=
  mkbook 8 2 "2026-01-10" "10:00:00" None.

Definition first_booked : db :=
  snd (book_appointment 11 wants_slot_nine two_free_slots).

Definition both_booked : db :=
  snd (book_appointment 12 wants_slot_ten first_booked).

(** Patient 11 asks to move appointment 100 to slot 2, which patient 12
    holds. *)
Definition move_to_slot_ten : reschedule_payload :=
  mkresched 100 2 "2026-01-10" "10:00:00".

(** Patient 11 books slot 1 and cancels; patient 12 then books slot 1. *)
Definition rebooked_after_cancel : db :=
  snd (book_appointment 12 wants_slot_nine
         (snd (cancel_appointment 11 100 first_booked))).


(** A reminder that patient 12 asks for on appointment 100 of patient 11. *)
Definition remind_other_patient : reminder_payload :=
  mkreminder 100 None "2026-01-09T09:00:00.000Z" None.

(** Two versions of the answers of patient 11 for appointment 100. *)
Definition first_answers : submit_payload :=
  mksubmit 100 None [("q1", "Headache"); ("q3", "None")].

Definition second_answers : submit_payload :=
  mksubmit 100 (Some "") [("q1", "Headache and fever"); ("q3", "Pollen")].

(** A reminder that patient 11 asks for on appointment 100, type left
    out. *)
Definition remind_me : reminder_payload :=
  mkreminder 100 None "2026-01-09T09:00:00.000Z" None.

(** An automatic booking with both follow-up steps enabled, a reminder
    collaborator that fails and a questionnaire collaborator that
    succeeds. *)
Definition automatic_request : CrewAI.AutomaticBookingRequest :=
  CrewAI.mk_request 11 "John Doe" (Some "2026-01-10") None
    (Some "Headache") (Some "General Physician") (Some true) (Some true).

Definition first_offered (_ : CrewAI.AutomaticBookingRequest)
    (slots : list Slot.t) : option Slot.t :=
  hd_error (filter Slot.is_available slots).

Definition reminder_service_down (_ : uuid) (rows : list Reminder.t)
    : bool * list Reminder.t :=
  (false, rows).

Definition questionnaire_service_up (_ : uuid)
    (rows : list QuestionnaireResponse.t)
    : bool * list QuestionnaireResponse.t :=
  (true, rows).

Definition noon_two_days_before : string := "2026-01-08T12:00:00.000Z".


(** * More stores and requests used as examples *)


(** A request to book slot 1 sent without a valid token. *)
Definition anonymous_booking : booking_request :=
  mkrequest "POST" None
    (Some (mkbody "book_appointment"
             (mkfields 7 1 "2026-01-10" "09:00:00" None 0 0 "" "")))
    noon_two_days_before.

(** The same request from patient 11. *)
Definition booking_by_patient : booking_request :=
  mkrequest "POST" (Some 11)
    (Some (mkbody "book_appointment"
             (mkfields 7 1 "2026-01-10" "09:00:00" None 0 0 "" "")))
    noon_two_days_before.

(** Two active questionnaires and a retired one, the retired one being the
    latest. *)
Definition three_questionnaires : list Questionnaire.t :=
  [Questionnaire.mk "7d1c0f5a-0000-4000-8000-000000002024" "Intake 2024" None [] (Some true)
                    (Some "2024-03-01T08:00:00Z");
   Questionnaire.mk "7d1c0f5a-0000-4000-8000-000000002026" "Intake 2026" None [] (Some false)
                    (Some "2026-01-01T08:00:00Z");
   Questionnaire.mk "7d1c0f5a-0000-4000-8000-000000002025" "Intake 2025" None [] (Some true)
                    (Some "2025-06-01T08:00:00Z")].

(** A transport whose server is unreachable, and one that answers 401 with
    an empty body. *)
Definition unreachable (_ : CrewAI.AutomaticBookingRequest) (w : nat)
    : CrewAI.fetched * nat :=
  (CrewAI.Threw (Some "Failed to fetch"), S w).

Definition unauthorized_answer : api_fetched (list Slot.t) :=
  ApiAnswered false 401 None.

(** A browser clock for three texts, and the appointments of Jo: a past
    confirmed one, a cancelled one and two confirmed ones to come. *)
Definition three_dates (text : string) : option Z :=
  if String.eqb text "2026-01-05 09:00" then Some 100%Z
  else if String.eqb text "2026-01-12 10:00" then Some 300%Z
  else if String.eqb text "2026-01-20 00:00" then Some 500%Z
  else None.

Definition appointments_of_jo : list ApiAppointment.t :=
  [ApiAppointment.mk "a3" "u1" "Jo" "2026-01-20" None "confirmed";
   ApiAppointment.mk "a1" "u1" "Jo" "2026-01-05" (Some "09:00") "confirmed";
   ApiAppointment.mk "a4" "u1" "Jo" "2026-01-05" (Some "09:00") "cancelled";
   ApiAppointment.mk "a2" "u1" "Jo" "2026-01-12" (Some "10:00") "confirmed"].

(** Doctor 7 is the user 70, doctor 8 the user 80; neither patient 11 nor
    patient 12 is a doctor. *)
Definition two_doctors : list Doctor.t :=
  [Doctor.mk 7 70 "General Physician"; Doctor.mk 8 80 "Cardiologist"].

(** Slots of two doctors, one of them with a hyphen set off by spaces in
    the name. *)
Definition listed_slots : list ApiSlot.t :=
  [ApiSlot.mk (Some "d1") "Dr. Ada Park" (Some "Cardiologist")
              "2026-01-10" "9:00 AM" (Some true);
   ApiSlot.mk (Some "d1") "Dr. Ada Park" (Some "Cardiologist")
              "2026-01-10" "10:00 AM" (Some false);
   ApiSlot.mk (Some "d2") "Dr. Lee - Ortho" None
              "2026-01-10" "9:00 AM" (Some true)].

(** A message for a statement that the policies of a table refuse. *)
Definition refused_by_policy (table : string) : string :=
  String.append "new row violates row-level security policy for table "
                table.

(** A message for a row whose foreign key references no row. *)
Definition refused_by_key (constraint : string) : string :=
  String.append "insert or update violates foreign key constraint "
                constraint.

(** The questionnaires of the database: one active questionnaire; and two
    versions of the answers of patient 11 to it for appointment 100. *)
Definition intake : Questionnaire.t :=
  Questionnaire.mk "0b8f6a1e-3c2d-4e5f-8a9b-1c2d3e4f5a6b" "Intake" None []
                   (Some true) (Some "2025-06-01T08:00:00Z").

Definition first_intake_answers : submit_payload :=
  mksubmit 100 (Some "0b8f6a1e-3c2d-4e5f-8a9b-1c2d3e4f5a6b")
           [("q1", "Headache"); ("q3", "None")].

Definition second_intake_answers : submit_payload :=
  mksubmit 100 (Some "0b8f6a1e-3c2d-4e5f-8a9b-1c2d3e4f5a6b")
           [("q1", "Headache and fever"); ("q3", "Pollen")].




(** * Properties *)

(** ** Elementary facts about the queries *)

Lemma single_Some {A : Type} (rows : list A) (r : A) :
  single rows = Some r <-> rows = [r].
Proof.
  destruct rows as [|x [|y rest]]; simpl; split; intros H;
    try discriminate; congruence.
Qed.

Lemma update_where_length {A : Type} (p : A -> bool) (f : A -> A) rows :
  List.length (update_where p f rows) = List.length rows.
Proof. apply length_map. Qed.

Lemma update_where_idempotent {A : Type} (p : A -> bool) (f : A -> A) rows :
  (forall r, p (f r) = p r) -> (forall r, f (f r) = f r) ->
  update_where p f (update_where p f rows) = update_where p f rows.
Proof.
  intros Hp Hf. unfold update_where. rewrite map_map.
  apply map_ext. intros r. destruct (p r) eqn:E.
  - rewrite Hp, E. apply Hf.
  - now rewrite E.
Qed.

Lemma update_where_fixed {A : Type} (p : A -> bool) (f : A -> A) rows :
  (forall r, In r rows -> p r = true -> f r = r) ->
  update_where p f rows = rows.
Proof.
  intros H. unfold update_where. rewrite <- (map_id rows) at 2.
  apply map_ext_in. intros r Hr. destruct (p r) eqn:E; auto.
Qed.

Lemma in_update_where {A : Type} (p : A -> bool) (f : A -> A) rows r' :
  In r' (update_where p f rows) ->
  exists r, In r rows /\ r' = (if p r then f r else r).
Proof.
  unfold update_where. rewrite in_map_iff.
  intros [r [E Hr]]. exists r. split; [exact Hr | now symmetry].
Qed.

(** A filter that only reads what an update leaves alone sees the same
    rows, rewritten. *)
Lemma filter_update_where {A : Type} (q p : A -> bool) (f : A -> A) rows :
  (forall r, q (f r) = q r) ->
  filter q (update_where p f rows) = update_where p f (filter q rows).
Proof.
  intros Hq. induction rows as [|r rows IH]; simpl; [reflexivity|].
  destruct (p r) eqn:E.
  - rewrite Hq. destruct (q r); simpl; rewrite ?E, IH; reflexivity.
  - destruct (q r); simpl; rewrite ?E, IH; reflexivity.
Qed.

Lemma filter_andb {A : Type} (p q : A -> bool) (l : list A) :
  filter (fun x => p x && q x) l = filter q (filter p l).
Proof.
  induction l as [|x l IH]; simpl; [reflexivity|].
  destruct (p x); simpl; [destruct (q x)|]; now rewrite IH.
Qed.

(** ** [reserve] and [release] *)

Lemma reserve_no_available_row slot_id d :
  filter (fun s => (Slot.id s =? slot_id) && Slot.is_available s)
         (appointment_slots (reserve slot_id d)) = [].
Proof.
  unfold reserve, with_slots; simpl.
  induction (appointment_slots d) as [|s rows IH]; simpl; [reflexivity|].
  destruct (Slot.id s =? slot_id) eqn:E; simpl.
  - rewrite E. simpl. exact IH.
  - rewrite E. simpl. exact IH.
Qed.

Lemma release_appointments slot_id d :
  appointments (release slot_id d) = appointments d.
Proof. reflexivity. Qed.


(** ** [book_appointment], one call after the other *)

Lemma book_appointment_unavailable user p d :
  book_check (bk_slot_id p) d = None ->
  book_appointment user p d = (failure 400 "Slot no longer available", d).
Proof. unfold book_appointment. now intros ->. Qed.

Lemma book_appointment_success user p d :
  success (fst (book_appointment user p d)) = true ->
  exists s, book_check (bk_slot_id p) d = Some s.
Proof.
  unfold book_appointment.
  destruct (book_check (bk_slot_id p) d) as [s|]; simpl.
  - intros _. now exists s.
  - discriminate.
Qed.

(** After a booking that succeeded, the slot is no longer offered. *)
Lemma book_appointment_takes_slot user p d :
  success (fst (book_appointment user p d)) = true ->
  book_check (bk_slot_id p) (snd (book_appointment user p d)) = None.
Proof.
  intros H. destruct (book_appointment_success _ _ _ H) as [s Hs].
  unfold book_appointment. rewrite Hs. simpl.
  unfold book_check. now rewrite reserve_no_available_row.
Qed.

(** So of two calls for one slot served one after the other, the second is
    turned away. *)
Lemma book_appointment_second_refused user1 user2 p1 p2 d :
  bk_slot_id p1 = bk_slot_id p2 ->
  success (fst (book_appointment user1 p1 d)) = true ->
  error_of (fst (book_appointment user2 p2 (snd (book_appointment user1 p1 d))))
  = Some SlotUnavailable.
Proof.
  intros E H. apply book_appointment_takes_slot in H. rewrite E in H.
  now rewrite (book_appointment_unavailable _ _ _ H).
Qed.

(** A call that runs its three statements without another call in between
    is [book_appointment]. *)
Lemma run_alone user p d :
  run [0; 0; 0] [mkcall user p AtCheck] d
  = ([mkcall user p (Returned (fst (book_appointment user p d)))],
     snd (book_appointment user p d)).
Proof.
  unfold book_appointment. simpl. unfold book_step at 1. simpl.
  destruct (book_check (bk_slot_id p) d); reflexivity.
Qed.

(** ** Two bookings of one slot in flight *)

(** C1, on the code: two calls of [book_appointment] for the same free slot
    whose statements alternate (check, check, insert, insert, mark, mark)
    both return success; the slot ends unavailable and two appointments
    reference it.  The check and the write of the flag are two separate
    statements, and nothing between them excludes the other call. *)
Theorem book_appointment_race_double_books :
  let (calls, d) := run [0; 1; 0; 1; 0; 1] two_callers one_free_slot in
  map returned_success calls = [true; true]
  /\ map returned_unavailable calls = [false; false]
  /\ map Slot.is_available (appointment_slots d) = [false]
  /\ List.length (referencing 1 d) = 2
  /\ List.length (holders 1 d) = 2.
Proof. vm_compute. repeat split; reflexivity. Qed.

(** Served one after the other, the same two calls give one success and one
    refusal. *)
Lemma book_appointment_in_turn :
  let (calls, d) := run [0; 0; 0; 1; 1; 1] two_callers one_free_slot in
  map returned_success calls = [true; false]
  /\ map returned_unavailable calls = [false; true]
  /\ List.length (referencing 1 d) = 1.
Proof. vm_compute. repeat split; reflexivity. Qed.

(** ** [reschedule_appointment] *)

(** No path of the handler answers that the slot is unavailable: the new
    slot's flag is never read. *)
Lemma reschedule_never_refuses_slot user p d :
  error_of (fst (reschedule_appointment user p d)) <> Some SlotUnavailable.
Proof.
  unfold reschedule_appointment.
  destruct (owned_appointment user (rs_appointment_id p) d); simpl;
    [|discriminate].
  match goal with |- context [single ?l] => destruct (single l) end;
    simpl; discriminate.
Qed.

(** C2, on the code: patient 11 reschedules appointment 100 from slot 1 to
    slot 2 while appointment 101 holds slot 2.  The call succeeds, slot 1 is
    released, and appointment 100 now references slot 2 next to appointment
    101: the old slot is freed first and the new slot is written without
    being checked. *)
Theorem reschedule_onto_held_slot :
  let (r, d) := reschedule_appointment 11 move_to_slot_ten both_booked in
  map Slot.is_available (appointment_slots both_booked) = [false; false]
  /\ map Appointment.slot_id (appointments both_booked) = [1; 2]
  /\ success r = true
  /\ error_of r = None
  /\ map Slot.is_available (appointment_slots d) = [true; false]
  /\ map Appointment.slot_id (appointments d) = [2; 2]
  /\ List.length (holders 2 d) = 2.
Proof. vm_compute. repeat split; reflexivity. Qed.

(** ** Invariant I1 *)

Lemma I1b_spec d : I1b d = true <-> I1 d.
Proof.
  unfold I1b, I1. rewrite forallb_forall.
  split; intros H s Hs; specialize (H s Hs).
  - apply Bool.eqb_prop in H.
    destruct (Slot.is_available s); simpl in H; symmetry in H.
    + apply Nat.eqb_neq in H. split; [discriminate | contradiction].
    + apply Nat.eqb_eq in H. split; auto.
  - destruct (Slot.is_available s) eqn:Ea; simpl.
    + destruct (List.length (holders (Slot.id s) d) =? 1) eqn:En;
        [|reflexivity].
      apply Nat.eqb_eq in En. apply H in En. discriminate.
    + destruct H as [H _]. rewrite (H eq_refl). reflexivity.
Qed.

(** C3, on the code: I1 holds in the store with two free slots and after
    each of the two bookings, and is broken by the reschedule of appointment
    100 onto the held slot 2, which succeeds: slot 2 is unavailable with two
    confirmed appointments referencing it. *)
Theorem I1_broken_by_reschedule :
  I1 two_free_slots /\ I1 first_booked /\ I1 both_booked
  /\ success (fst (reschedule_appointment 11 move_to_slot_ten both_booked))
     = true
  /\ ~ I1 (snd (reschedule_appointment 11 move_to_slot_ten both_booked)).
Proof.
  split; [apply I1b_spec; vm_compute; reflexivity|].
  split; [apply I1b_spec; vm_compute; reflexivity|].
  split; [apply I1b_spec; vm_compute; reflexivity|].
  split; [vm_compute; reflexivity|].
  intros Hinv. apply I1b_spec in Hinv. vm_compute in Hinv. discriminate.
Qed.

(** I1 is also broken by cancelling again an appointment whose slot has
    been taken by someone else meanwhile: the slot is marked available
    while a confirmed appointment references it. *)
Lemma I1_broken_by_repeated_cancel :
  I1 rebooked_after_cancel
  /\ success (fst (cancel_appointment 11 100 rebooked_after_cancel)) = true
  /\ ~ I1 (snd (cancel_appointment 11 100 rebooked_after_cancel)).
Proof.
  split; [apply I1b_spec; vm_compute; reflexivity|].
  split; [vm_compute; reflexivity|].
  intros Hinv. apply I1b_spec in Hinv. vm_compute in Hinv. discriminate.
Qed.

(** ** Ownership *)

Lemma owned_appointment_Some user appointment_id d a :
  owned_appointment user appointment_id d = Some a ->
  In a (appointments d) /\ Appointment.id a = appointment_id
  /\ Appointment.patient_id a = user.
Proof.
  unfold owned_appointment. intros H. apply single_Some in H.
  assert (Hin : In a (filter (fun a => (Appointment.id a =? appointment_id)
                                && (Appointment.patient_id a =? user))
                             (appointments d)))
    by (rewrite H; now left).
  apply filter_In in Hin. destruct Hin as [Hin Hb].
  apply andb_true_iff in Hb. destruct Hb as [H1 H2].
  apply Nat.eqb_eq in H1. apply Nat.eqb_eq in H2. auto.
Qed.

Lemma owned_appointment_None user appointment_id d :
  (forall a, In a (appointments d) -> Appointment.id a = appointment_id ->
             Appointment.patient_id a <> user) ->
  owned_appointment user appointment_id d = None.
Proof.
  intros H. unfold owned_appointment.
  replace (filter _ (appointments d)) with (@nil Appointment.t);
    [reflexivity|].
  symmetry. induction (appointments d) as [|a rows IH]; [reflexivity|].
  simpl. destruct (Appointment.id a =? appointment_id) eqn:E1; simpl.
  - destruct (Appointment.patient_id a =? user) eqn:E2.
    + apply Nat.eqb_eq in E1. apply Nat.eqb_eq in E2.
      exfalso. apply (H a); simpl; auto.
    + apply IH. intros b Hb. apply H. now right.
  - apply IH. intros b Hb. apply H. now right.
Qed.



(** ** [cancel_appointment] *)

Lemma cancel_appointment_owned user appointment_id d a :
  owned_appointment user appointment_id d = Some a ->
  cancel_appointment user appointment_id d
  = (ok (BMessage "Appointment cancelled"),
     release (Appointment.slot_id a)
       (with_appointments
          (update_where (fun b => Appointment.id b =? appointment_id)
                        (Appointment.set_status Appointment.cancelled)) d)).
Proof. unfold cancel_appointment. now intros ->. Qed.

(** ** [submit_response] *)

Lemma existsb_false_filter {A : Type} (p : A -> bool) (l : list A) :
  existsb p l = false -> filter p l = [].
Proof.
  induction l as [|x l IH]; simpl; [reflexivity|].
  destruct (p x); simpl; [discriminate | exact IH].
Qed.

Lemma existsb_true_filter {A : Type} (p : A -> bool) (l : list A) :
  existsb p l = true -> filter p l <> [].
Proof.
  induction l as [|x l IH]; simpl; [discriminate|].
  destruct (p x); simpl; [discriminate | exact IH].
Qed.

Lemma conflict_key_refl new_id appointment_id patient questionnaire_id answers :
  conflict_key appointment_id questionnaire_id
    (QuestionnaireResponse.mk new_id appointment_id patient
                              questionnaire_id answers) = true.
Proof.
  unfold conflict_key; simpl. now rewrite Nat.eqb_refl, String.eqb_refl.
Qed.

(** What an upsert leaves under its key: the one row it wrote, carrying the
    submitted answers. *)
Lemma upsert_response_stores appointment_id patient questionnaire_id answers d :
  List.length (filter (conflict_key appointment_id questionnaire_id)
                      (questionnaire_responses d)) <= 1 ->
  exists row,
    fst (upsert_response appointment_id patient questionnaire_id answers d)
      = [row]
    /\ filter (conflict_key appointment_id questionnaire_id)
         (questionnaire_responses
            (snd (upsert_response appointment_id patient questionnaire_id
                                  answers d))) = [row]
    /\ QuestionnaireResponse.responses row = answers
    /\ QuestionnaireResponse.patient_id row = patient.
Proof.
  intros Hle. unfold upsert_response.
  destruct (existsb (conflict_key appointment_id questionnaire_id)
                    (questionnaire_responses d)) eqn:Ex.
  - apply existsb_true_filter in Ex. cbn [fst snd].
    unfold with_responses; cbn [questionnaire_responses].
    rewrite filter_update_where by (intros []; reflexivity).
    destruct (filter (conflict_key appointment_id questionnaire_id)
                     (questionnaire_responses d)) as [|r0 [|r1 rest]] eqn:Ef;
      [contradiction | | simpl in Hle; lia].
    assert (Hk : conflict_key appointment_id questionnaire_id r0 = true).
    { assert (Hin : In r0 (filter (conflict_key appointment_id
                                     questionnaire_id)
                             (questionnaire_responses d)))
        by (rewrite Ef; now left).
      apply filter_In in Hin. tauto. }
    simpl. rewrite Hk.
    exists (QuestionnaireResponse.overwrite patient answers r0).
    repeat split; reflexivity.
  - apply existsb_false_filter in Ex. cbn [fst snd fresh_uuid].
    unfold with_responses; cbn [questionnaire_responses].
    rewrite filter_app, Ex. simpl. rewrite conflict_key_refl.
    eexists. repeat split; reflexivity.
Qed.

Lemma submit_response_appointments user p d :
  appointments (snd (submit_response user p d)) = appointments d.
Proof.
  unfold submit_response.
  destruct (owned_appointment user (sb_appointment_id p) d);
    [|reflexivity].
  unfold upsert_response.
  destruct (existsb _ _); cbn [fresh_uuid];
    match goal with |- context [single ?l] => destruct (single l) end;
    reflexivity.
Qed.

Lemma owned_appointment_same user appointment_id d d1 :
  appointments d1 = appointments d ->
  owned_appointment user appointment_id d1
  = owned_appointment user appointment_id d.
Proof. unfold owned_appointment. now intros ->. Qed.

(** A submission by the patient of the appointment succeeds and leaves one
    row under its key, with the submitted answers. *)
Lemma submit_response_stores user p d a :
  owned_appointment user (sb_appointment_id p) d = Some a ->
  List.length (filter (conflict_key (sb_appointment_id p)
                         (or_else (sb_questionnaire_id p) "default"))
                      (questionnaire_responses d)) <= 1 ->
  exists row,
    fst (submit_response user p d)
      = ok (BResponse row "Your responses have been saved successfully")
    /\ filter (conflict_key (sb_appointment_id p)
                 (or_else (sb_questionnaire_id p) "default"))
         (questionnaire_responses (snd (submit_response user p d))) = [row]
    /\ QuestionnaireResponse.responses row = sb_responses p
    /\ QuestionnaireResponse.patient_id row = user.
Proof.
  intros Howned Hle. unfold submit_response. rewrite Howned.
  destruct (upsert_response_stores (sb_appointment_id p) user
              (or_else (sb_questionnaire_id p) "default") (sb_responses p)
              d Hle) as [row [Hw [Hf [Ha Hp]]]].
  destruct (upsert_response (sb_appointment_id p) user
              (or_else (sb_questionnaire_id p) "default") (sb_responses p) d)
    as [written d1].
  cbn [fst snd] in Hw, Hf. subst written. cbn [single fst snd].
  exists row. auto.
Qed.

(** ** Automatic booking *)

Lemma reserve_unavailable slot_id d s :
  In s (appointment_slots (reserve slot_id d)) ->
  Slot.id s = slot_id -> Slot.is_available s = false.
Proof.
  unfold reserve, with_slots; simpl. intros Hin Hid.
  apply in_update_where in Hin. destruct Hin as [s0 [_ ->]].
  destruct (Slot.id s0 =? slot_id) eqn:E; simpl in *; [reflexivity|].
  apply Nat.eqb_neq in E. contradiction.
Qed.

(** Step 1, when it succeeds, leaves a confirmed appointment of the
    requesting patient in the store and its slot unavailable. *)
Lemma reserve_and_create_books choose_slot request d appointment d1 :
  reserve_and_create choose_slot request d = (Some appointment, d1) ->
  In appointment (appointments d1)
  /\ Appointment.status appointment = Appointment.confirmed
  /\ Appointment.patient_id appointment = CrewAI.patient_id request
  /\ (forall s, In s (appointment_slots d1) ->
        Slot.id s = Appointment.slot_id appointment ->
        Slot.is_available s = false).
Proof.
  unfold reserve_and_create.
  destruct (choose_slot request (appointment_slots d)) as [chosen|];
    [|discriminate].
  unfold allocator_reserve.
  destruct (filter _ (appointment_slots d)) as [|s rest] eqn:Ef;
    [discriminate|].
  cbn [fresh_uuid]. intros H. injection H as Ha Hd.
  assert (Hs : Slot.id s = Slot.id chosen).
  { assert (Hin : In s (filter (fun s0 => (Slot.id s0 =? Slot.id chosen)
                                          && Slot.is_available s0)
                          (appointment_slots d)))
      by (rewrite Ef; now left).
    apply filter_In in Hin. destruct Hin as [_ Hb].
    apply andb_true_iff in Hb. now apply Nat.eqb_eq. }
  subst appointment d1. simpl.
  split; [apply in_or_app; right; now left|].
  split; [reflexivity|]. split; [reflexivity|].
  intros s0 Hin Hid. rewrite Hs in Hid.
  revert Hin Hid. apply reserve_unavailable.
Qed.

(** C6: when step 1 (reserve and create the appointment) succeeds, the
    result of the automatic booking reports success whatever the reminder
    and questionnaire collaborators answer; [reminder_scheduled] and
    [questionnaire_sent] report what each collaborator answered (false for a
    step that is not enabled); and the appointment of step 1 is in the final
    store, confirmed, with its slot unavailable: steps 2 and 3 leave the
    appointments and the slots as step 1 left them. *)
Theorem automatic_booking_partial_success
    choose_slot schedule ensureSent request d appointment d1 :
  reserve_and_create choose_slot request d = (Some appointment, d1) ->
  let outcome :=
    automaticBookingWithCrewAI
      (automatic_booking choose_slot schedule ensureSent) request d in
  CrewAI.success (fst outcome) = true
  /\ CrewAI.appointment_id (fst outcome) = Some (Appointment.id appointment)
  /\ CrewAI.reminder_scheduled (fst outcome)
     = Some (enabled (CrewAI.auto_schedule_reminders request)
             && fst (schedule (Appointment.id appointment) (reminders d1)))
  /\ CrewAI.questionnaire_sent (fst outcome)
     = Some (enabled (CrewAI.auto_send_questionnaire request)
             && fst (ensureSent (Appointment.id appointment)
                       (questionnaire_responses d1)))
  /\ appointments (snd outcome) = appointments d1
  /\ appointment_slots (snd outcome) = appointment_slots d1
  /\ In appointment (appointments (snd outcome))
  /\ Appointment.status appointment = Appointment.confirmed
  /\ (forall s, In s (appointment_slots (snd outcome)) ->
        Slot.id s = Appointment.slot_id appointment ->
        Slot.is_available s = false).
Proof.
  intros Hstep1 outcome.
  destruct (reserve_and_create_books _ _ _ _ _ Hstep1)
    as [Hin [Hst [_ Hslot]]].
  assert (Hout :
    CrewAI.success (fst outcome) = true
    /\ CrewAI.appointment_id (fst outcome) = Some (Appointment.id appointment)
    /\ CrewAI.reminder_scheduled (fst outcome)
       = Some (enabled (CrewAI.auto_schedule_reminders request)
               && fst (schedule (Appointment.id appointment) (reminders d1)))
    /\ CrewAI.questionnaire_sent (fst outcome)
       = Some (enabled (CrewAI.auto_send_questionnaire request)
               && fst (ensureSent (Appointment.id appointment)
                         (questionnaire_responses d1)))
    /\ appointments (snd outcome) = appointments d1
    /\ appointment_slots (snd outcome) = appointment_slots d1).
  { subst outcome. unfold automaticBookingWithCrewAI, automatic_booking.
    rewrite Hstep1.
    destruct (schedule (Appointment.id appointment) (reminders d1))
      as [done2 rows2] eqn:E2.
    destruct (ensureSent (Appointment.id appointment)
                (questionnaire_responses d1)) as [done3 rows3] eqn:E3.
    destruct (enabled (CrewAI.auto_schedule_reminders request));
      destruct (enabled (CrewAI.auto_send_questionnaire request));
      simpl; rewrite ?E3; simpl; repeat split; reflexivity. }
  destruct Hout as [H1 [H2 [H3 [H4 [H5 H6]]]]].
  repeat (split; [assumption|]).
  rewrite H5, H6. repeat split; assumption.
Qed.

Lemma automatic_booking_partial_success_witness :
  let outcome :=
    automaticBookingWithCrewAI
      (automatic_booking first_offered reminder_service_down
                         questionnaire_service_up)
      automatic_request one_free_slot in
  CrewAI.success (fst outcome) = true
  /\ CrewAI.reminder_scheduled (fst outcome) = Some false
  /\ CrewAI.questionnaire_sent (fst outcome) = Some true
  /\ map Appointment.status (appointments (snd outcome))
     = [Appointment.confirmed].
Proof.
  destruct (automatic_booking_partial_success first_offered
              reminder_service_down questionnaire_service_up
              automatic_request one_free_slot _ _ eq_refl)
    as [H1 [_ [H3 [H4 _]]]].
  split; [exact H1|]. split; [exact H3|]. split; [exact H4 | reflexivity].
Defined.

(** ** The order of dates and times *)

Lemma ascii_compare_refl (a : ascii) : Ascii.compare a a = Eq.
Proof. unfold Ascii.compare. apply N.compare_refl. Qed.

Lemma ascii_compare_lt_trans (a b c : ascii) :
  Ascii.compare a b = Lt -> Ascii.compare b c = Lt -> Ascii.compare a c = Lt.
Proof.
  unfold Ascii.compare. rewrite !N.compare_lt_iff. apply N.lt_trans.
Qed.

Lemma string_compare_refl (s : string) : String.compare s s = Eq.
Proof.
  induction s as [|a s IH]; simpl; [reflexivity|].
  now rewrite ascii_compare_refl.
Qed.

Lemma string_compare_lt_trans (x y z : string) :
  String.compare x y = Lt -> String.compare y z = Lt ->
  String.compare x z = Lt.
Proof.
  revert y z. induction x as [|a x IH]; intros [|b y] [|c z]; simpl;
    try discriminate; auto.
  destruct (Ascii.compare a b) eqn:Eab; try discriminate.
  - apply Ascii.compare_eq_iff in Eab. subst b.
    destruct (Ascii.compare a c); try discriminate; auto.
    apply IH.
  - intros _. destruct (Ascii.compare b c) eqn:Ebc; try discriminate.
    + apply Ascii.compare_eq_iff in Ebc. subst c. now rewrite Eab.
    + now rewrite (ascii_compare_lt_trans _ _ _ Eab Ebc).
Qed.

Lemma string_ltb_lt (x y : string) :
  String.ltb x y = true <-> String.compare x y = Lt.
Proof.
  unfold String.ltb. destruct (String.compare x y); split;
    intros H; try discriminate; reflexivity.
Qed.

Lemma string_leb_cases (x y : string) :
  String.leb x y = true <-> String.compare x y = Lt \/ x = y.
Proof.
  unfold String.leb. destruct (String.compare x y) eqn:E; split; intros H;
    auto; try discriminate.
  - right. now apply String.compare_eq_iff.
  - destruct H as [H | H]; [discriminate|].
    subst y. rewrite string_compare_refl in E. discriminate.
Qed.

Lemma string_leb_refl (x : string) : String.leb x x = true.
Proof. apply string_leb_cases. now right. Qed.

Lemma string_leb_trans (x y z : string) :
  String.leb x y = true -> String.leb y z = true -> String.leb x z = true.
Proof.
  rewrite !string_leb_cases. intros [Hxy | ->] [Hyz | <-]; auto.
  left. eapply string_compare_lt_trans; eassumption.
Qed.




(** ** Bookings served in turn *)

Lemma book_in_turn_refused slot_id calls d :
  book_check slot_id d = None ->
  Forall (fun c => bk_slot_id (snd c) = slot_id) calls ->
  book_in_turn calls d
  = (map (fun _ => failure 400 "Slot no longer available") calls, d).
Proof.
  intros Hnone Hall. induction Hall as [|[user p] later Hp _ IH]; simpl;
    [reflexivity|].
  simpl in Hp. rewrite <- Hp in Hnone.
  rewrite (book_appointment_unavailable _ _ _ Hnone).
  rewrite Hp in Hnone. now rewrite IH.
Qed.

(** Of any number of calls for one free slot served in turn, the first
    succeeds and every later one is refused; one appointment more
    references the slot. *)
Lemma book_in_turn_one_success slot_id user p later d s :
  book_check slot_id d = Some s ->
  bk_slot_id p = slot_id ->
  Forall (fun c => bk_slot_id (snd c) = slot_id) later ->
  exists appointment,
    fst (book_in_turn ((user, p) :: later) d)
    = ok (BAppointment appointment)
      :: map (fun _ => failure 400 "Slot no longer available") later
    /\ referencing slot_id (snd (book_in_turn ((user, p) :: later) d))
       = referencing slot_id d ++ [appointment]
    /\ forall s', In s' (appointment_slots
                          (snd (book_in_turn ((user, p) :: later) d))) ->
         Slot.id s' = slot_id -> Slot.is_available s' = false.
Proof.
  intros Hs Hp Hall. subst slot_id.
  assert (Hok : success (fst (book_appointment user p d)) = true)
    by (unfold book_appointment; now rewrite Hs).
  pose proof (book_appointment_takes_slot _ _ _ Hok) as Htaken.
  cbn [book_in_turn].
  destruct (book_appointment user p d) as [r d1] eqn:Hb.
  cbn [fst snd] in Htaken.
  rewrite (book_in_turn_refused _ _ _ Htaken Hall). cbn [fst snd].
  unfold book_appointment in Hb. rewrite Hs in Hb.
  unfold book_insert in Hb. cbn [fresh_uuid] in Hb.
  injection Hb as <- <-.
  eexists. split; [reflexivity|]. split.
  - unfold referencing; simpl. rewrite filter_app; simpl.
    now rewrite Nat.eqb_refl.
  - intros s' Hin Hid. revert Hin Hid. apply reserve_unavailable.
Qed.

(** ** What the bookings maintain *)

Lemma accounted_I1 d : accounted d -> I1 d.
Proof.
  intros H s Hs. rewrite (H s Hs).
  destruct (Slot.is_available s); split; intros E; try discriminate; auto.
Qed.

Lemma holders_reserve slot_id sid d :
  holders slot_id (reserve sid d) = holders slot_id d.
Proof. reflexivity. Qed.

Lemma holders_release slot_id sid d :
  holders slot_id (release sid d) = holders slot_id d.
Proof. reflexivity. Qed.

(** A booking keeps the account of every slot. *)
Lemma book_appointment_accounted user p d :
  accounted d -> accounted (snd (book_appointment user p d)).
Proof.
  intros Hacc. unfold book_appointment.
  destruct (book_check (bk_slot_id p) d) as [s0|] eqn:Hs; [|exact Hacc].
  unfold book_insert. cbn [fresh_uuid snd].
  assert (Hfree : List.length (holders (bk_slot_id p) d) = 0).
  { unfold book_check in Hs. apply single_Some in Hs.
    assert (Hin : In s0 (filter (fun s => (Slot.id s =? bk_slot_id p)
                                          && Slot.is_available s)
                           (appointment_slots d)))
      by (rewrite Hs; now left).
    apply filter_In in Hin. destruct Hin as [Hin Hb].
    apply andb_true_iff in Hb. destruct Hb as [Hid Hav].
    apply Nat.eqb_eq in Hid. specialize (Hacc s0 Hin).
    now rewrite Hav, Hid in Hacc. }
  intros s Hin. rewrite holders_reserve.
  unfold reserve, with_slots in Hin; simpl in Hin.
  apply in_update_where in Hin. destruct Hin as [t [Ht ->]].
  unfold holders; simpl. rewrite filter_app, length_app; simpl.
  destruct (Slot.id t =? bk_slot_id p) eqn:E; simpl.
  - apply Nat.eqb_eq in E. rewrite E, Nat.eqb_refl. simpl.
    unfold holders in Hfree. rewrite Hfree. reflexivity.
  - rewrite Nat.eqb_sym, E. simpl. rewrite Nat.add_0_r.
    apply (Hacc t Ht).
Qed.

Lemma update_where_none {A : Type} (p : A -> bool) (f : A -> A) rows :
  (forall r, In r rows -> p r = false) -> update_where p f rows = rows.
Proof.
  intros H. apply update_where_fixed. intros r Hr Hp.
  rewrite (H r Hr) in Hp. discriminate.
Qed.

(** Cancelling an active appointment takes one holder away from its slot
    and none from any other. *)
Lemma holders_after_cancel (rows : list Appointment.t) a slot_id :
  NoDup (map Appointment.id rows) -> In a rows ->
  Appointment.active a = true ->
  List.length
    (filter (fun b => Appointment.active b
                      && (Appointment.slot_id b =? slot_id))
       (update_where (fun b => Appointment.id b =? Appointment.id a)
          (Appointment.set_status Appointment.cancelled) rows))
  + (if Appointment.slot_id a =? slot_id then 1 else 0)
  = List.length
      (filter (fun b => Appointment.active b
                        && (Appointment.slot_id b =? slot_id)) rows).
Proof.
  intros Hnd Hin Hact. induction rows as [|r rows IH]; [contradiction|].
  simpl in Hnd. inversion Hnd as [|? ? Hfresh Hnd']; subst.
  destruct Hin as [-> | Hin].
  - simpl. rewrite Nat.eqb_refl. simpl.
    rewrite update_where_none.
    + rewrite Hact. simpl.
      destruct (Appointment.slot_id a =? slot_id); simpl; lia.
    + intros b Hb. apply Nat.eqb_neq. intros E. apply Hfresh.
      rewrite <- E. now apply in_map.
  - assert (Hne : (Appointment.id r =? Appointment.id a) = false).
    { apply Nat.eqb_neq. intros E. apply Hfresh. rewrite E.
      now apply in_map. }
    simpl. rewrite Hne. specialize (IH Hnd' Hin).
    destruct (Appointment.active r && (Appointment.slot_id r =? slot_id));
      simpl; lia.
Qed.

(** The cancellation of an active appointment keeps the account of every
    slot. *)
Lemma cancel_active_accounted user appointment_id d a :
  accounted d -> appointment_ids_unique d ->
  owned_appointment user appointment_id d = Some a ->
  Appointment.active a = true ->
  accounted (snd (cancel_appointment user appointment_id d)).
Proof.
  intros Hacc Hpk Howned Hact.
  rewrite (cancel_appointment_owned _ _ _ _ Howned). cbn [snd].
  destruct (owned_appointment_Some _ _ _ _ Howned) as [Hin [Hid _]].
  subst appointment_id.
  intros s Hs. rewrite holders_release.
  unfold release, with_slots in Hs; simpl in Hs.
  apply in_update_where in Hs. destruct Hs as [t [Ht ->]].
  pose proof (holders_after_cancel (appointments d) a (Slot.id t)
                Hpk Hin Hact) as Hcount.
  specialize (Hacc t Ht). unfold holders in *. simpl.
  destruct (Slot.id t =? Appointment.slot_id a) eqn:E; simpl.
  - rewrite Nat.eqb_sym, E in Hcount.
    destruct (Slot.is_available t); lia.
  - rewrite Nat.eqb_sym, E in Hcount. lia.
Qed.

(** The cancellation of an appointment that is not active does not: the
    store after the second cancellation of appointment 100 has slot 1
    available and held. *)
Lemma cancel_inactive_not_accounted :
  accounted rebooked_after_cancel
  /\ ~ accounted (snd (cancel_appointment 11 100 rebooked_after_cancel)).
Proof.
  split.
  - intros s Hs. vm_compute in Hs.
    destruct Hs as [<- | [<- | []]]; reflexivity.
  - intros H.
    specialize (H (Slot.mk 1 7 "2026-01-10" "09:00:00" true)
                  (or_introl eq_refl)).
    vm_compute in H. discriminate.
Qed.

(** * Properties of the rest of the handlers *)

(** ** Ordered listings *)

Section OrderingFacts.
Context {A : Type} (leb : A -> A -> bool).

Lemma insert_by_perm x rows : Permutation (insert_by leb x rows) (x :: rows).
Proof.
  induction rows as [|y rows IH]; simpl; [reflexivity|].
  destruct (leb x y); [reflexivity|].
  rewrite IH. apply perm_swap.
Qed.

Lemma sort_by_perm rows : Permutation (sort_by leb rows) rows.
Proof.
  induction rows as [|x rows IH]; simpl; [reflexivity|].
  rewrite insert_by_perm. now constructor.
Qed.

Lemma sort_by_in rows x : In x (sort_by leb rows) <-> In x rows.
Proof.
  split; apply Permutation_in;
    [apply sort_by_perm | symmetry; apply sort_by_perm].
Qed.

Lemma sort_by_length rows : List.length (sort_by leb rows) = List.length rows.
Proof. apply Permutation_length, sort_by_perm. Qed.

Hypothesis leb_total : forall x y, leb x y = true \/ leb y x = true.
Hypothesis leb_trans :
  forall x y z, leb x y = true -> leb y z = true -> leb x z = true.

Lemma insert_by_sorted x rows :
  StronglySorted (fun a b => leb a b = true) rows ->
  StronglySorted (fun a b => leb a b = true) (insert_by leb x rows).
Proof.
  induction 1 as [|y rows Hs IH Hy]; simpl.
  - repeat constructor.
  - destruct (leb x y) eqn:E.
    + constructor; [now constructor|].
      constructor; [exact E|].
      rewrite Forall_forall in *. intros z Hz.
      apply (leb_trans _ _ _ E). now apply Hy.
    + constructor; [exact IH|].
      rewrite Forall_forall in *. intros z Hz.
      apply (Permutation_in _ (insert_by_perm x rows)) in Hz.
      destruct Hz as [<- | Hz]; [|now apply Hy].
      destruct (leb_total y x); [assumption | congruence].
Qed.

Lemma sort_by_sorted rows :
  StronglySorted (fun a b => leb a b = true) (sort_by leb rows).
Proof.
  induction rows as [|x rows IH]; simpl; [constructor|].
  now apply insert_by_sorted.
Qed.
End OrderingFacts.

Lemma StronglySorted_app_inv {A : Type} (R : A -> A -> Prop) (l1 l2 : list A) :
  StronglySorted R (l1 ++ l2) ->
  StronglySorted R l1 /\ StronglySorted R l2
  /\ forall x y, In x l1 -> In y l2 -> R x y.
Proof.
  induction l1 as [|a l1 IH]; simpl; intros H.
  - repeat split; [constructor | exact H | intros x y []].
  - inversion H as [|? ? Hs Hall]; subst.
    destruct (IH Hs) as [H1 [H2 H12]].
    rewrite Forall_forall in Hall.
    repeat split; [|exact H2|].
    + constructor; [exact H1|]. rewrite Forall_forall. intros z Hz.
      apply Hall, in_or_app. now left.
    + intros x y [<- | Hx] Hy; [|now apply H12].
      apply Hall, in_or_app. now right.
Qed.


(** ** [get_slots] *)


(** ** [get_my_appointments] *)




(** ** [book_appointment]: what a booking leaves in the store *)




(** ** Booking, cancelling, booking again *)






(** ** [reschedule_appointment]: what a reschedule leaves in the store *)

Lemma filter_by_id_unique (rows : list Appointment.t) a :
  NoDup (map Appointment.id rows) -> In a rows ->
  filter (fun b => Appointment.id b =? Appointment.id a) rows = [a].
Proof.
  intros Hnd Hin. induction rows as [|b rows IH]; [contradiction|].
  simpl in Hnd. inversion Hnd as [|? ? Hfresh Hnd']; subst.
  simpl. destruct Hin as [-> | Hin].
  - rewrite Nat.eqb_refl. f_equal.
    clear IH Hnd Hnd'.
    induction rows as [|c rows IH]; [reflexivity|]. simpl.
    assert (E : (Appointment.id c =? Appointment.id a) = false).
    { apply Nat.eqb_neq. intros E. apply Hfresh. rewrite <- E. now left. }
    rewrite E. apply IH. intros H. apply Hfresh. now right.
  - assert (E : (Appointment.id b =? Appointment.id a) = false).
    { apply Nat.eqb_neq. intros E. apply Hfresh. rewrite E.
      now apply in_map. }
    rewrite E. now apply IH.
Qed.

(** ** The request handler of the booking agent *)

Lemma handlers_keep_rows :
  (forall slot_id d, map Slot.id (appointment_slots (reserve slot_id d))
                     = map Slot.id (appointment_slots d))
  /\ (forall (f : Appointment.t -> Appointment.t) p rows,
        (forall a, Appointment.id (f a) = Appointment.id a) ->
        map Appointment.id (update_where p f rows) = map Appointment.id rows).
Proof.
  split.
  - intros slot_id d. unfold reserve, with_slots, update_where; simpl.
    rewrite map_map. apply map_ext. intros s.
    now destruct (Slot.id s =? slot_id).
  - intros f p rows Hf. unfold update_where. rewrite map_map.
    apply map_ext. intros a. destruct (p a); [apply Hf | reflexivity].
Qed.

(** X6: only an authenticated request to book, reschedule or cancel can
    change the store.  A CORS preflight, a request whose token names no
    user (answered 401), a body that is not JSON (500), a listing action and
    an unknown action (400) all leave it as it is. *)
Theorem booking_agent_writes rq d :
  snd (booking_agent rq d) <> d ->
  rq_method rq <> "OPTIONS"
  /\ exists user b,
       rq_user rq = Some user /\ rq_body rq = Some b
       /\ (rq_action b = "book_appointment"
           \/ rq_action b = "reschedule_appointment"
           \/ rq_action b = "cancel_appointment").
Proof.
  unfold booking_agent.
  destruct (String.eqb_spec (rq_method rq) "OPTIONS") as [Em | Em];
    [intros H; now contradiction H|].
  destruct (rq_user rq) as [user|]; [|intros H; now contradiction H].
  destruct (rq_body rq) as [b|]; [|intros H; now contradiction H].
  intros H. split; [exact Em|]. exists user, b.
  split; [reflexivity|]. split; [reflexivity|].
  destruct (String.eqb_spec (rq_action b) "get_slots");
    [now contradiction H|].
  destruct (String.eqb_spec (rq_action b) "book_appointment"); [now left|].
  destruct (String.eqb_spec (rq_action b) "reschedule_appointment");
    [right; now left|].
  destruct (String.eqb_spec (rq_action b) "cancel_appointment");
    [right; now right|].
  destruct (String.eqb_spec (rq_action b) "get_my_appointments");
    now contradiction H.
Qed.

Lemma booking_agent_writes_witness :
  rq_method booking_by_patient <> "OPTIONS"
  /\ snd (booking_agent anonymous_booking one_free_slot) = one_free_slot.
Proof.
  assert (H : snd (booking_agent booking_by_patient one_free_slot)
              <> one_free_slot)
    by (vm_compute; discriminate).
  destruct (booking_agent_writes booking_by_patient one_free_slot H)
    as [Hm _].
  split; [exact Hm | reflexivity].
Defined.

(** X7: no request deletes or replaces a row.  After any request the slots
    are the same rows up to their availability flag, the appointments keep
    their ids in place with at most one new appointment after them, and the
    reminders and questionnaire responses are untouched. *)
Theorem booking_agent_keeps_rows rq d :
  let d' := snd (booking_agent rq d) in
  map (Slot.set_is_available true) (appointment_slots d')
    = map (Slot.set_is_available true) (appointment_slots d)
  /\ (exists added,
        map Appointment.id (appointments d')
          = map Appointment.id (appointments d) ++ added
        /\ List.length added <= 1)
  /\ reminders d' = reminders d
  /\ questionnaire_responses d' = questionnaire_responses d.
Proof.
  assert (Hflag : forall p b rows,
    map (Slot.set_is_available true)
        (update_where p (Slot.set_is_available b) rows)
    = map (Slot.set_is_available true) rows).
  { intros p b rows. unfold update_where. rewrite map_map.
    apply map_ext. intros s. now destruct (p s). }
  assert (Hsame : forall x : db,
    map (Slot.set_is_available true) (appointment_slots x)
      = map (Slot.set_is_available true) (appointment_slots x)
    /\ (exists added,
          map Appointment.id (appointments x)
            = map Appointment.id (appointments x) ++ added
          /\ List.length added <= 1)
    /\ reminders x = reminders x
    /\ questionnaire_responses x = questionnaire_responses x).
  { intros x. split; [reflexivity|]. split; [|split; reflexivity].
    exists []. rewrite app_nil_r. split; [reflexivity | simpl; lia]. }
  destruct handlers_keep_rows as [_ Hids].
  unfold booking_agent.
  destruct (String.eqb (rq_method rq) "OPTIONS"); [apply Hsame|].
  destruct (rq_user rq) as [user|]; [|apply Hsame].
  destruct (rq_body rq) as [b|]; [|apply Hsame].
  destruct (String.eqb (rq_action b) "get_slots"); [apply Hsame|].
  destruct (String.eqb (rq_action b) "book_appointment").
  { unfold handled, book_appointment. cbn [snd].
    destruct (book_check _ d); [|apply Hsame].
    cbn [snd book_insert fresh_uuid]. simpl.
    split; [apply Hflag|]. split; [|split; reflexivity].
    eexists. rewrite map_app. split; [reflexivity | simpl; lia]. }
  destruct (String.eqb (rq_action b) "reschedule_appointment").
  { unfold handled, reschedule_appointment. cbn [snd].
    destruct (owned_appointment user _ d) as [a|]; [|apply Hsame].
    match goal with |- context [single ?l] => destruct (single l) end;
      cbn [snd]; simpl;
      (split; [rewrite ?Hflag; reflexivity|]);
      (split; [|split; reflexivity]);
      exists []; rewrite app_nil_r;
      (split; [apply Hids; intros []; reflexivity | simpl; lia]). }
  destruct (String.eqb (rq_action b) "cancel_appointment").
  { unfold handled, cancel_appointment. cbn [snd].
    destruct (owned_appointment user _ d) as [a|]; [|apply Hsame].
    cbn [snd]; simpl.
    split; [apply Hflag|]. split; [|split; reflexivity].
    exists []. rewrite app_nil_r.
    split; [apply Hids; intros []; reflexivity | simpl; lia]. }
  destruct (String.eqb (rq_action b) "get_my_appointments"); apply Hsame.
Qed.

(** ** [get_questionnaire] *)

Lemma newest_first_total a b :
  newest_first a b = true \/ newest_first b a = true.
Proof.
  unfold newest_first.
  destruct (Questionnaire.created_at a), (Questionnaire.created_at b); auto.
  apply String.leb_total.
Qed.

Lemma newest_first_trans a b c :
  newest_first a b = true -> newest_first b c = true ->
  newest_first a c = true.
Proof.
  unfold newest_first.
  destruct (Questionnaire.created_at a), (Questionnaire.created_at b),
    (Questionnaire.created_at c); auto; try discriminate.
  intros H1 H2. eapply string_leb_trans; eassumption.
Qed.

Lemma filter_by_text_unique (rows : list Questionnaire.t) q :
  NoDup (map Questionnaire.id rows) -> In q rows ->
  filter (fun x => String.eqb (Questionnaire.id x) (Questionnaire.id q)) rows
  = [q].
Proof.
  intros Hnd Hin. induction rows as [|b rows IH]; [contradiction|].
  simpl in Hnd. inversion Hnd as [|? ? Hfresh Hnd']; subst.
  simpl. destruct Hin as [-> | Hin].
  - rewrite String.eqb_refl. f_equal.
    clear IH Hnd Hnd'.
    induction rows as [|c rows IH]; [reflexivity|]. simpl.
    assert (E : String.eqb (Questionnaire.id c) (Questionnaire.id q) = false).
    { apply String.eqb_neq. intros E. apply Hfresh. rewrite <- E. now left. }
    rewrite E. apply IH. intros H. apply Hfresh. now right.
  - assert (E : String.eqb (Questionnaire.id b) (Questionnaire.id q) = false).
    { apply String.eqb_neq. intros E. apply Hfresh. rewrite E.
      now apply in_map. }
    rewrite E. now apply IH.
Qed.

(** X8: what [get_questionnaire] serves is an active questionnaire of the
    table or the built-in default, never anything else of the table.
    Without an id it always answers with a questionnaire: an
    active one of the table when there is one, and then none of the active
    ones is more recent, and the built-in default otherwise.  With an id,
    the ids being unique, it answers with the questionnaire of that id when
    that one is active, and with an error when none of that id is
    active. *)
Theorem get_questionnaire_serves questionnaires questionnaire_id :
  (forall q, get_questionnaire questionnaires questionnaire_id
             = Listed (LQuestionnaire q) ->
     q = default_questionnaire
     \/ (In q questionnaires /\ Questionnaire.active q = true))
  /\ (truthy questionnaire_id = None ->
      exists q,
        get_questionnaire questionnaires questionnaire_id
          = Listed (LQuestionnaire q)
        /\ ((In q questionnaires /\ Questionnaire.active q = true
             /\ forall q', In q' questionnaires ->
                  Questionnaire.active q' = true ->
                  newest_first q q' = true)
            \/ (q = default_questionnaire
                /\ forall q', In q' questionnaires ->
                     Questionnaire.active q' = false)))
  /\ (forall wanted, truthy questionnaire_id = Some wanted ->
      (forall q, get_questionnaire questionnaires questionnaire_id
                 = Listed (LQuestionnaire q) ->
         In q questionnaires /\ Questionnaire.id q = wanted)
      /\ (NoDup (map Questionnaire.id questionnaires) ->
          forall q, In q questionnaires -> Questionnaire.id q = wanted ->
            Questionnaire.active q = true ->
            get_questionnaire questionnaires questionnaire_id
            = Listed (LQuestionnaire q))
      /\ ((forall q, In q questionnaires ->
             Questionnaire.id q = wanted -> Questionnaire.active q = false) ->
          get_questionnaire questionnaires questionnaire_id
            = Handled (thrown not_single_row))).
Proof.
  unfold get_questionnaire.
  destruct (truthy questionnaire_id) as [wanted|] eqn:Et.
  - assert (Hfound : forall q,
      single (filter (fun q => String.eqb (Questionnaire.id q) wanted
                               && Questionnaire.active q) questionnaires)
        = Some q ->
      In q questionnaires /\ Questionnaire.id q = wanted
      /\ Questionnaire.active q = true).
    { intros q H. apply single_Some in H.
      assert (Hin : In q (filter (fun q => String.eqb (Questionnaire.id q)
                                             wanted
                                           && Questionnaire.active q)
                            questionnaires))
        by (rewrite H; now left).
      apply filter_In in Hin. destruct Hin as [Hin Hb].
      apply andb_true_iff in Hb. destruct Hb as [Hid Ha].
      apply String.eqb_eq in Hid. auto. }
    split; [|split; [discriminate|]].
    + intros q H. right.
      destruct (single _) as [q0|] eqn:Es; [|discriminate].
      injection H as <-. destruct (Hfound _ eq_refl) as [H1 [_ H3]]. auto.
    + intros w [= <-]. split.
      * intros q H. destruct (single _) as [q0|] eqn:Es; [|discriminate].
        injection H as <-. destruct (Hfound _ eq_refl) as [H1 [H2 _]]. auto.
      * split.
        { intros Hnd q Hin Hid Ha.
          rewrite filter_andb, <- Hid.
          rewrite (filter_by_text_unique questionnaires q Hnd Hin).
          simpl. now rewrite Ha. }
        intros Hnone.
        replace (filter _ questionnaires) with (@nil Questionnaire.t);
          [reflexivity|].
        symmetry. clear Hfound.
        induction questionnaires as [|q rows IH]; [reflexivity|].
        simpl. destruct (String.eqb_spec (Questionnaire.id q) wanted) as [E|E];
          simpl.
        -- rewrite (Hnone q (or_introl eq_refl) E).
           apply IH. intros q0 Hq0. apply Hnone. now right.
        -- apply IH. intros q0 Hq0. apply Hnone. now right.
  - destruct (sort_by newest_first
                (filter Questionnaire.active questionnaires))
      as [|q rest] eqn:Es.
    + assert (Hnone : forall q', In q' questionnaires ->
                                 Questionnaire.active q' = false).
      { intros q' Hq'. destruct (Questionnaire.active q') eqn:Ea;
          [|reflexivity].
        assert (Hin : In q' (sort_by newest_first
                               (filter Questionnaire.active questionnaires)))
          by (apply sort_by_in, filter_In; auto).
        rewrite Es in Hin. contradiction. }
      split; [|split; [|discriminate]].
      * intros q [= <-]. now left.
      * intros _. exists default_questionnaire. split; [reflexivity|].
        right. auto.
    + assert (Hq : In q questionnaires /\ Questionnaire.active q = true).
      { apply filter_In. apply (sort_by_in newest_first). rewrite Es.
        now left. }
      split; [|split; [|discriminate]].
      * intros q0 [= <-]. right. apply Hq.
      * intros _. exists q. split; [reflexivity|]. left.
        split; [apply Hq|]. split; [apply Hq|].
        intros q' Hin' Ha'.
        pose proof (sort_by_sorted newest_first newest_first_total
                      newest_first_trans
                      (filter Questionnaire.active questionnaires)) as Hs.
        rewrite Es in Hs. inversion Hs as [|? ? _ Hall]; subst.
        assert (Hin : In q' (q :: rest)).
        { rewrite <- Es. apply sort_by_in, filter_In. auto. }
        destruct Hin as [<- | Hin].
        -- destruct (newest_first_total q q); assumption.
        -- rewrite Forall_forall in Hall. now apply Hall.
Qed.

Lemma get_questionnaire_serves_witness :
  exists q,
    get_questionnaire three_questionnaires
      (Some "7d1c0f5a-0000-4000-8000-000000002024")
    = Listed (LQuestionnaire q)
    /\ Questionnaire.title q = "Intake 2024"
    /\ get_questionnaire three_questionnaires
         (Some "7d1c0f5a-0000-4000-8000-000000002026")
       = Handled (thrown not_single_row)
    /\ exists latest,
         get_questionnaire three_questionnaires None
         = Listed (LQuestionnaire latest)
         /\ Questionnaire.title latest = "Intake 2025".
Proof.
  destruct (get_questionnaire_serves three_questionnaires
              (Some "7d1c0f5a-0000-4000-8000-000000002024"))
    as [_ [_ H3]].
  destruct (H3 _ eq_refl) as [_ [Hserved _]].
  eexists. split.
  - apply Hserved; [|left; reflexivity | reflexivity | reflexivity].
    cbn. repeat (constructor; [cbn; intuition discriminate|]). constructor.
  - split; [reflexivity|]. split; [reflexivity|].
    eexists. split; reflexivity.
Defined.

(** ** [submit_response] and [get_responses] *)

Lemma conflict_key_other a q a' q' r :
  a' <> a \/ q' <> q ->
  conflict_key a q r = true -> conflict_key a' q' r = false.
Proof.
  unfold conflict_key. intros Hne H. apply andb_true_iff in H.
  destruct H as [H1 H2]. apply Nat.eqb_eq in H1.
  apply String.eqb_eq in H2. apply andb_false_iff.
  destruct Hne as [Hne | Hne].
  - left. apply Nat.eqb_neq. congruence.
  - right. apply String.eqb_neq. congruence.
Qed.

(** X10: a submission writes the responses of its own appointment and
    questionnaire only.  Whoever calls and whatever the outcome, the slots,
    appointments and reminders are untouched, the responses stored for any
    other appointment or questionnaire are what they were, no response is
    removed and at most one is added. *)
Theorem submit_response_frame user p d :
  let d1 := snd (submit_response user p d) in
  appointment_slots d1 = appointment_slots d
  /\ appointments d1 = appointments d
  /\ reminders d1 = reminders d
  /\ (forall a' q',
        a' <> sb_appointment_id p
        \/ q' <> or_else (sb_questionnaire_id p) "default" ->
        filter (conflict_key a' q') (questionnaire_responses d1)
        = filter (conflict_key a' q') (questionnaire_responses d))
  /\ List.length (questionnaire_responses d)
     <= List.length (questionnaire_responses d1)
  /\ List.length (questionnaire_responses d1)
     <= S (List.length (questionnaire_responses d)).
Proof.
  intros d1. subst d1. unfold submit_response.
  destruct (owned_appointment user (sb_appointment_id p) d).
  2:{ repeat split; auto. }
  unfold upsert_response.
  destruct (existsb _ (questionnaire_responses d)) eqn:Ex.
  - match goal with |- context [single ?l] => destruct (single l) end;
      cbn [snd]; simpl;
      (repeat (split; [reflexivity|]));
      (split; [|rewrite update_where_length; lia]);
      intros a' q' Hne;
      (rewrite filter_update_where by (intros []; reflexivity));
      apply update_where_none; intros r Hr;
      apply filter_In in Hr; destruct Hr as [_ Hr];
      destruct (conflict_key (sb_appointment_id p)
                  (or_else (sb_questionnaire_id p) "default") r) eqn:Ek;
      try reflexivity;
      (assert (Hsym : sb_appointment_id p <> a'
                      \/ or_else (sb_questionnaire_id p) "default" <> q')
         by (destruct Hne; [left | right]; congruence));
      rewrite (conflict_key_other _ _ _ _ _ Hsym Hr) in Ek; discriminate.
  - cbn [fresh_uuid single snd]. simpl.
    repeat (split; [reflexivity|]).
    split; [|rewrite length_app; simpl; lia].
    intros a' q' Hne. rewrite filter_app. simpl.
    rewrite (conflict_key_other _ _ _ _ _ Hne (conflict_key_refl _ _ _ _ _)).
    apply app_nil_r.
Qed.

(** ** The API client *)

Lemma truthy_nonempty o s : truthy o = Some s -> s <> "".
Proof.
  unfold truthy. destruct o as [t|]; [|discriminate].
  destruct (String.eqb_spec t ""); [discriminate|].
  intros [= <-]. assumption.
Qed.

Lemma or_else_nonempty o dflt : dflt <> "" -> or_else o dflt <> "".
Proof.
  unfold or_else. destruct (truthy o) as [s|] eqn:E; [|auto].
  intros _. eapply truthy_nonempty; eassumption.
Qed.

Lemma or_else_given o dflt s : truthy o = Some s -> or_else o dflt = s.
Proof. unfold or_else. now intros ->. Qed.

(** X12: [apiRequest] hands back either data or an error, never both and
    never neither: data exactly when the server answered with an ok status,
    an error otherwise.  The error is never empty; it is the [detail] of
    the body when there is one, else its [message], and names the HTTP
    status only when the body gives neither. *)
Theorem apiRequest_data_or_error (T : Type) (fetched : api_fetched T) :
  let r := apiRequest fetched in
  (data r = None <-> error r <> None)
  /\ (data r <> None <->
      exists status body, fetched = ApiAnswered true status body)
  /\ (forall e, error r = Some e -> e <> "")
  /\ (forall status body d,
        fetched = ApiAnswered false status (Some body) ->
        truthy (api_detail body) = Some d -> error r = Some d)
  /\ (forall status body m,
        fetched = ApiAnswered false status (Some body) ->
        truthy (api_detail body) = None ->
        truthy (api_message body) = Some m -> error r = Some m)
  /\ (forall status body,
        fetched = ApiAnswered false status body ->
        (forall b, body = Some b ->
           truthy (api_detail b) = None /\ truthy (api_message b) = None) ->
        error r = Some (String.append "HTTP " (decimal status))).
Proof.
  intros r. subst r.
  split.
  { destruct fetched as [m | [|] status body]; simpl; split; intros H;
      try discriminate; try reflexivity; now contradiction H. }
  split.
  { destruct fetched as [m | [|] status body]; simpl; split; intros H;
      try discriminate; try (now contradiction H);
      try (destruct H as [s [b H]]; discriminate).
    now exists status, body. }
  split.
  { intros e. destruct fetched as [m | [|] status body]; simpl;
      intros [= <-].
    - now apply or_else_nonempty.
    - apply or_else_nonempty, or_else_nonempty. discriminate. }
  split.
  { intros status body d -> Hd. simpl. f_equal. now apply or_else_given. }
  split.
  { intros status body m -> Hd Hm. simpl. f_equal.
    unfold or_else at 1. rewrite Hd. now apply or_else_given. }
  intros status body -> Hb. simpl. f_equal.
  destruct body as [b|].
  - destruct (Hb b eq_refl) as [Hd Hm]. unfold or_else. now rewrite Hd, Hm.
  - reflexivity.
Qed.

Lemma apiRequest_data_or_error_witness :
  error (apiRequest unauthorized_answer) = Some "HTTP 401"
  /\ data (apiRequest unauthorized_answer) = None.
Proof.
  destruct (apiRequest_data_or_error (list Slot.t) unauthorized_answer)
    as [_ [_ [_ [_ [_ H]]]]].
  split; [|reflexivity].
  rewrite (H 401 None eq_refl); [reflexivity|]. intros b [=].
Defined.

(** X13: the result of [automaticBookingWithCrewAI] reports success exactly
    when the server answered with an ok status; then it carries the
    appointment id and the two flags of the answer as they are.  A failure,
    whether the server refused or could not be reached, carries no
    appointment id and no flag.  The message is never empty, and exactly
    one request is sent. *)
Theorem automatic_result_shape (World : Type)
    (post : CrewAI.AutomaticBookingRequest -> World -> CrewAI.fetched * World)
    request w :
  let r := fst (automaticBookingWithCrewAI post request w) in
  CrewAI.message r <> ""
  /\ snd (automaticBookingWithCrewAI post request w) = snd (post request w)
  /\ (CrewAI.success r = true <->
      exists data, fst (post request w) = CrewAI.Answered true data)
  /\ (forall data, fst (post request w) = CrewAI.Answered true data ->
        CrewAI.appointment_id r = CrewAI.r_appointment_id data
        /\ CrewAI.reminder_scheduled r = CrewAI.r_reminder_scheduled data
        /\ CrewAI.questionnaire_sent r = CrewAI.r_questionnaire_sent data)
  /\ (CrewAI.success r = false ->
        CrewAI.appointment_id r = None
        /\ CrewAI.reminder_scheduled r = None
        /\ CrewAI.questionnaire_sent r = None).
Proof.
  intros r. subst r. unfold automaticBookingWithCrewAI.
  destruct (post request w) as [[m | [|] data] w1]; cbn [fst snd].
  - split; [apply or_else_nonempty; discriminate|].
    split; [reflexivity|]. split.
    + split; [discriminate | intros [x H]; discriminate].
    + split; [intros x H; discriminate | auto].
  - split; [apply or_else_nonempty; discriminate|].
    split; [reflexivity|]. split.
    + split; [intros _; now exists data | reflexivity].
    + split; [intros x [= <-]; auto | discriminate].
  - split; [apply or_else_nonempty, or_else_nonempty; discriminate|].
    split; [reflexivity|]. split.
    + split; [discriminate | intros [x H]; discriminate].
    + split; [intros x H; discriminate | auto].
Qed.

Lemma automatic_result_shape_witness :
  CrewAI.success (fst (automaticBookingWithCrewAI unreachable
                         automatic_request 0)) = false
  /\ CrewAI.appointment_id (fst (automaticBookingWithCrewAI unreachable
                                   automatic_request 0)) = None
  /\ snd (automaticBookingWithCrewAI unreachable automatic_request 0) = 1.
Proof.
  destruct (automatic_result_shape nat unreachable automatic_request 0)
    as [_ [H2 [_ [_ H5]]]].
  split; [reflexivity|]. split; [apply H5; reflexivity | exact H2].
Defined.

(** X25: [triggerCrewAIAgentsForAppointment] sends one request, for the
    operations "reminder" and "questionnaire" when the caller names none,
    and reports success exactly when the server answered with an ok status.
    Its result never carries an appointment id or one of the two flags, not
    even on success, and its message is never empty. *)
Theorem trigger_result_shape (World : Type)
    (post : string -> list string -> World -> CrewAI.fetched * World)
    appointmentId operations w :
  let sent :=
    match operations with
    | Some ops => ops
    | None => ["reminder"; "questionnaire"]
    end in
  let r :=
    fst (triggerCrewAIAgentsForAppointment post appointmentId operations w) in
  snd (triggerCrewAIAgentsForAppointment post appointmentId operations w)
    = snd (post appointmentId sent w)
  /\ (CrewAI.success r = true <->
      exists data, fst (post appointmentId sent w) = CrewAI.Answered true data)
  /\ CrewAI.appointment_id r = None
  /\ CrewAI.reminder_scheduled r = None
  /\ CrewAI.questionnaire_sent r = None
  /\ CrewAI.message r <> "".
Proof.
  intros sent r. subst r. unfold triggerCrewAIAgentsForAppointment.
  fold default_operations in sent.
  change (match operations with
          | Some ops => ops
          | None => default_operations
          end) with sent.
  destruct (post appointmentId sent w) as [[error_message | [|] data] w1];
    cbn [fst snd].
  - split; [reflexivity|]. split.
    + split; [discriminate | intros [x H]; discriminate].
    + repeat (split; [reflexivity|]). apply or_else_nonempty. discriminate.
  - split; [reflexivity|]. split.
    + split; [intros _; now exists data | reflexivity].
    + repeat (split; [reflexivity|]). apply or_else_nonempty. discriminate.
  - split; [reflexivity|]. split.
    + split; [discriminate | intros [x H]; discriminate].
    + repeat (split; [reflexivity|]).
      apply or_else_nonempty, or_else_nonempty. discriminate.
Qed.

(** ** [formatTimeAgo] *)

(** X14: [formatTimeAgo] tells how long ago a time was, rounded down to the
    largest of seconds, minutes, hours and days that is not zero.  Less
    than a minute (and any time in the future) is told in seconds, always
    in the plural; from one minute on, one unit is told in the singular and
    more in the plural. *)
Theorem formatTimeAgo_rounds_down now date :
  let s := ((now - date) / 1000)%Z in
  ((s < 60)%Z ->
     formatTimeAgo now date = String.append (show s) " seconds ago")
  /\ ((60 <= s < 120)%Z -> formatTimeAgo now date = "1 minute ago")
  /\ ((120 <= s < 3600)%Z ->
        formatTimeAgo now date
        = String.append (show (s / 60)) " minutes ago")
  /\ ((3600 <= s < 7200)%Z -> formatTimeAgo now date = "1 hour ago")
  /\ ((7200 <= s < 86400)%Z ->
        formatTimeAgo now date
        = String.append (show (s / 3600)) " hours ago")
  /\ ((86400 <= s < 172800)%Z -> formatTimeAgo now date = "1 day ago")
  /\ ((172800 <= s)%Z ->
        formatTimeAgo now date
        = String.append (show (s / 86400)) " days ago").
Proof.
  intros s.
  assert (Hmin : forall lo hi : Z,
             (lo * 60 <= s < hi * 60)%Z -> (lo <= s / 60 < hi)%Z).
  { intros lo hi H. split.
    - apply Z.div_le_lower_bound; lia.
    - apply Z.div_lt_upper_bound; lia. }
  assert (Hh : (0 <= s -> s / 60 / 60 = s / 3600)%Z).
  { intros H. rewrite Z.div_div by lia. reflexivity. }
  assert (Hd : (0 <= s -> s / 60 / 60 / 24 = s / 86400)%Z).
  { intros H. rewrite !Z.div_div by lia. reflexivity. }
  assert (Hhour : forall lo hi : Z,
             (lo * 3600 <= s < hi * 3600)%Z -> (lo <= s / 3600 < hi)%Z).
  { intros lo hi H. split.
    - apply Z.div_le_lower_bound; lia.
    - apply Z.div_lt_upper_bound; lia. }
  assert (Hday : forall lo : Z, (lo * 86400 <= s)%Z -> (lo <= s / 86400)%Z).
  { intros lo H. apply Z.div_le_lower_bound; lia. }
  unfold formatTimeAgo. fold s.
  split.
  { intros H. destruct (Z.ltb_spec s 60); [reflexivity | lia]. }
  split.
  { intros H. destruct (Z.ltb_spec s 60); [lia|].
    assert (E : (s / 60 = 1)%Z) by (specialize (Hmin 1 2)%Z; lia).
    rewrite E. reflexivity. }
  split.
  { intros H. destruct (Z.ltb_spec s 60); [lia|].
    pose proof (Hmin 2 60 ltac:(lia))%Z as Hb.
    destruct (Z.ltb_spec (s / 60) 60); [|lia].
    destruct (Z.gtb_spec (s / 60) 1); [reflexivity | lia]. }
  split.
  { intros H. destruct (Z.ltb_spec s 60); [lia|].
    pose proof (Hmin 60 120 ltac:(lia))%Z as Hb.
    destruct (Z.ltb_spec (s / 60) 60); [lia|].
    rewrite Hh by lia.
    assert (E : (s / 3600 = 1)%Z) by (specialize (Hhour 1 2)%Z; lia).
    rewrite E. reflexivity. }
  split.
  { intros H. destruct (Z.ltb_spec s 60); [lia|].
    pose proof (Hmin 120 1440 ltac:(lia))%Z as Hb.
    destruct (Z.ltb_spec (s / 60) 60); [lia|].
    rewrite Hh by lia.
    pose proof (Hhour 2 24 ltac:(lia))%Z as Hc.
    destruct (Z.ltb_spec (s / 3600) 24); [|lia].
    destruct (Z.gtb_spec (s / 3600) 1); [reflexivity | lia]. }
  split.
  { intros H. destruct (Z.ltb_spec s 60); [lia|].
    pose proof (Hmin 1440 2880 ltac:(lia))%Z as Hb.
    destruct (Z.ltb_spec (s / 60) 60); [lia|].
    rewrite Hd by lia. rewrite Hh by lia.
    pose proof (Hhour 24 48 ltac:(lia))%Z as Hc.
    destruct (Z.ltb_spec (s / 3600) 24); [lia|].
    assert (E : (s / 86400 = 1)%Z).
    { pose proof (Hday 1%Z ltac:(lia)).
      assert (s / 86400 < 2)%Z by (apply Z.div_lt_upper_bound; lia). lia. }
    rewrite E. reflexivity. }
  intros H. destruct (Z.ltb_spec s 60); [lia|].
  assert (Hb : (60 <= s / 60)%Z) by (apply Z.div_le_lower_bound; lia).
  destruct (Z.ltb_spec (s / 60) 60); [lia|].
  rewrite Hd by lia. rewrite Hh by lia.
  assert (Hc : (24 <= s / 3600)%Z) by (apply Z.div_le_lower_bound; lia).
  destruct (Z.ltb_spec (s / 3600) 24); [lia|].
  pose proof (Hday 2%Z ltac:(lia)) as He.
  destruct (Z.gtb_spec (s / 86400) 1); [reflexivity | lia].
Qed.

Lemma formatTimeAgo_rounds_down_witness :
  formatTimeAgo 1767960000000 1767952500000 = "2 hours ago"
  /\ formatTimeAgo 1767960000000 1767960001000 = "-1 seconds ago".
Proof.
  destruct (formatTimeAgo_rounds_down 1767960000000 1767952500000)
    as [_ [_ [_ [_ [H5 _]]]]].
  destruct (formatTimeAgo_rounds_down 1767960000000 1767960001000)
    as [H1 _].
  split.
  - rewrite H5; [reflexivity | vm_compute; split; congruence].
  - rewrite H1; [reflexivity | reflexivity].
Defined.

(** ** The metrics of the analytics function *)

Lemma filter_length_le {A : Type} (p : A -> bool) (l : list A) :
  List.length (filter p l) <= List.length l.
Proof.
  induction l as [|x l IH]; simpl; [lia|].
  destruct (p x); simpl; lia.
Qed.

Lemma filter_and_length_le {A : Type} (p q : A -> bool) (l : list A) :
  List.length (filter (fun x => p x && q x) l) <= List.length (filter q l).
Proof.
  induction l as [|x l IH]; simpl; [lia|].
  destruct (p x), (q x); simpl; lia.
Qed.

Lemma nodup_length_le (l : list nat) :
  List.length (nodup Nat.eq_dec l) <= List.length l.
Proof.
  induction l as [|x l IH]; simpl; [lia|].
  destruct (in_dec Nat.eq_dec x l); simpl; lia.
Qed.

Lemma nodup_nil_iff (l : list nat) : nodup Nat.eq_dec l = [] <-> l = [].
Proof.
  split; [|now intros ->].
  destruct l as [|x l]; [reflexivity|]. intros H.
  assert (Hin : In x (nodup Nat.eq_dec (x :: l)))
    by (apply nodup_In; now left).
  rewrite H in Hin. contradiction.
Qed.

(** X15: the metrics agree with one another, whatever the store and the
    date: the cancellations of the period are among its bookings, which are
    among all bookings; the active patients are at most as many as the
    bookings of the period, and there is none exactly when there is no
    booking; each patient counts once, however many bookings they made; the
    reminders sent are among the reminders of the period. *)
Theorem metrics_consistent appointment_created_at reminder_created_at
    since d :
  cancellations appointment_created_at since d
    <= recentBookings appointment_created_at since d
  /\ recentBookings appointment_created_at since d <= totalBookings d
  /\ uniquePatients appointment_created_at since d
     <= recentBookings appointment_created_at since d
  /\ (uniquePatients appointment_created_at since d = 0 <->
      recentBookings appointment_created_at since d = 0)
  /\ (forall patient,
        count_occ Nat.eq_dec
          (nodup Nat.eq_dec
             (map Appointment.patient_id
                (filter (recent_appointment appointment_created_at since)
                        (appointments d)))) patient <= 1)
  /\ sentReminders reminder_created_at since d
     <= totalReminders reminder_created_at since d.
Proof.
  unfold cancellations, recentBookings, totalBookings, uniquePatients,
    sentReminders, totalReminders.
  split; [apply filter_and_length_le|].
  split; [apply filter_length_le|].
  split.
  { rewrite <- (length_map Appointment.patient_id
                  (filter (recent_appointment appointment_created_at since)
                          (appointments d))).
    apply nodup_length_le. }
  split.
  { rewrite !length_zero_iff_nil, nodup_nil_iff.
    split; [apply map_eq_nil | now intros ->]. }
  split.
  { intros patient. apply NoDup_count_occ. apply NoDup_nodup. }
  apply filter_and_length_le.
Qed.

(** ** The contact shown for a reminder *)

(** X16: the contact line of the reminder dialog is never blank.  It is the
    contact information of the reminder when there is one; otherwise it
    names the email, the phone, or both separated by a bar; and it reads
    "Not provided" when the reminder has none of the three. *)
Theorem contactInfo_never_blank contact_info patient_email patient_phone :
  contactInfo contact_info patient_email patient_phone <> ""
  /\ (forall c, truthy contact_info = Some c ->
        contactInfo contact_info patient_email patient_phone = c)
  /\ (truthy contact_info = None ->
      (forall e p, truthy patient_email = Some e ->
                   truthy patient_phone = Some p ->
         contactInfo contact_info patient_email patient_phone
         = String.append "Email: " (String.append e
             (String.append " | " (String.append "Phone: " p))))
      /\ (forall e, truthy patient_email = Some e ->
                    truthy patient_phone = None ->
            contactInfo contact_info patient_email patient_phone
            = String.append "Email: " e)
      /\ (forall p, truthy patient_email = None ->
                    truthy patient_phone = Some p ->
            contactInfo contact_info patient_email patient_phone
            = String.append "Phone: " p)
      /\ (truthy patient_email = None -> truthy patient_phone = None ->
            contactInfo contact_info patient_email patient_phone
            = "Not provided")).
Proof.
  assert (Happ : forall a b c : string,
             String.append (String.append a b) c
             = String.append a (String.append b c)).
  { induction a as [|x a IH]; intros b c; simpl; [reflexivity|].
    now rewrite IH. }
  assert (Hnil : forall a : string, String.append a "" = a).
  { induction a as [|x a IH]; simpl; [reflexivity | now rewrite IH]. }
  split.
  { unfold contactInfo. apply or_else_nonempty, or_else_nonempty.
    discriminate. }
  split; [intros c Hc; unfold contactInfo; now apply or_else_given|].
  intros Hc. unfold contactInfo, or_else. rewrite Hc.
  split.
  { intros e p -> ->. simpl. rewrite ?Happ. reflexivity. }
  split.
  { intros e -> ->. simpl. rewrite ?Hnil. reflexivity. }
  split.
  { intros p -> ->. reflexivity. }
  intros -> ->. reflexivity.
Qed.

Lemma contactInfo_never_blank_witness :
  contactInfo None (Some "jo@example.org") (Some "555-0100")
    = "Email: jo@example.org | Phone: 555-0100"
  /\ contactInfo (Some "") None (Some "") = "Not provided".
Proof.
  destruct (contactInfo_never_blank None (Some "jo@example.org")
              (Some "555-0100")) as [_ [_ H]].
  destruct (H eq_refl) as [H1 _].
  split; [apply (H1 _ _ eq_refl eq_refl) | reflexivity].
Defined.

(** ** The next appointment of the dashboard *)

Section OrderingOn.
Context {A : Type} (leb : A -> A -> bool) (P : A -> Prop).
Hypothesis leb_total :
  forall x y, P x -> P y -> leb x y = true \/ leb y x = true.
Hypothesis leb_trans :
  forall x y z, P x -> P y -> P z ->
    leb x y = true -> leb y z = true -> leb x z = true.

Lemma insert_by_sorted_on x rows :
  P x -> Forall P rows ->
  StronglySorted (fun a b => leb a b = true) rows ->
  StronglySorted (fun a b => leb a b = true) (insert_by leb x rows).
Proof.
  intros Hx HP Hs. induction Hs as [|y rows Hs IH Hy]; simpl.
  - repeat constructor.
  - inversion HP as [|? ? Py HP']; subst.
    rewrite Forall_forall in HP'.
    destruct (leb x y) eqn:E.
    + constructor; [now constructor|].
      constructor; [exact E|].
      rewrite Forall_forall in *. intros z Hz.
      apply (leb_trans x y z); auto.
    + constructor; [apply IH; now apply Forall_forall|].
      rewrite Forall_forall in *. intros z Hz.
      apply (Permutation_in _ (insert_by_perm leb x rows)) in Hz.
      destruct Hz as [<- | Hz]; [|now apply Hy].
      destruct (leb_total y x Py Hx); [assumption | congruence].
Qed.

Lemma sort_by_sorted_on rows :
  Forall P rows ->
  StronglySorted (fun a b => leb a b = true) (sort_by leb rows).
Proof.
  induction 1 as [|x rows Hx HP IH]; simpl; [constructor|].
  apply insert_by_sorted_on; [exact Hx | | exact IH].
  rewrite Forall_forall in *. intros y Hy. apply HP.
  now apply (sort_by_in leb).
Qed.
End OrderingOn.

Lemma find_split {A : Type} (p : A -> bool) (l : list A) a :
  find p l = Some a ->
  exists l1 l2, l = l1 ++ a :: l2 /\ p a = true
                /\ forall x, In x l1 -> p x = false.
Proof.
  induction l as [|x l IH]; simpl; [discriminate|].
  destruct (p x) eqn:E.
  - intros [= <-]. exists [], l. repeat split; [exact E | intros y []].
  - intros H. destruct (IH H) as [l1 [l2 [-> [Ha Hl1]]]].
    exists (x :: l1), l2. repeat split; [exact Ha|].
    intros y [<- | Hy]; [exact E | now apply Hl1].
Qed.

Section DashboardFacts.
Variable getTime : string -> option Z.

Lemma comes_first_total a b :
  dated getTime a -> dated getTime b ->
  comes_first getTime a b = true \/ comes_first getTime b a = true.
Proof.
  unfold dated, comes_first, compare_appointments. intros Ha Hb.
  destruct (appointment_time getTime a) as [ta|]; [|now contradiction Ha].
  destruct (appointment_time getTime b) as [tb|]; [|now contradiction Hb].
  destruct (is_confirmed a), (is_confirmed b); simpl; auto.
  - destruct (Z.leb_spec (ta - tb) 0); auto. right. apply Z.leb_le. lia.
  - destruct (Z.leb_spec (ta - tb) 0); auto. right. apply Z.leb_le. lia.
Qed.

Lemma comes_first_trans a b c :
  dated getTime a -> dated getTime b -> dated getTime c ->
  comes_first getTime a b = true -> comes_first getTime b c = true ->
  comes_first getTime a c = true.
Proof.
  unfold dated, comes_first, compare_appointments. intros Ha Hb Hc.
  destruct (appointment_time getTime a) as [ta|]; [|now contradiction Ha].
  destruct (appointment_time getTime b) as [tb|]; [|now contradiction Hb].
  destruct (appointment_time getTime c) as [tc|]; [|now contradiction Hc].
  destruct (is_confirmed a), (is_confirmed b), (is_confirmed c); simpl;
    auto; try discriminate;
    rewrite !Z.leb_le; lia.
Qed.

(** X17: the "Next Appointment" card.  When every appointment of the user
    has a date the browser can read: the card is empty exactly when the
    user has no appointment; what it shows is one of the user's
    appointments; when the user has a confirmed appointment that is not in
    the past, it shows the earliest such appointment; and otherwise it
    shows a confirmed appointment whenever the user has one. *)
Theorem upcomingAppointment_earliest now user appointments :
  Forall (dated getTime) (userAppointments user appointments) ->
  (upcomingAppointment getTime now user appointments = None <->
   userAppointments user appointments = [])
  /\ (forall a, upcomingAppointment getTime now user appointments = Some a ->
        In a (userAppointments user appointments))
  /\ ((exists c, In c (userAppointments user appointments)
                 /\ is_upcoming getTime now c = true) ->
      exists a t,
        upcomingAppointment getTime now user appointments = Some a
        /\ is_confirmed a = true
        /\ appointment_time getTime a = Some t /\ (now <= t)%Z
        /\ forall c tc, In c (userAppointments user appointments) ->
             is_confirmed c = true ->
             appointment_time getTime c = Some tc -> (now <= tc)%Z ->
             (t <= tc)%Z)
  /\ ((exists c, In c (userAppointments user appointments)
                 /\ is_confirmed c = true) ->
      exists a, upcomingAppointment getTime now user appointments = Some a
                /\ is_confirmed a = true).
Proof.
  intros Hdated.
  unfold upcomingAppointment, sortedAppointments.
  remember (userAppointments user appointments) as mine eqn:Emine.
  clear Emine.
  pose proof (sort_by_sorted_on (comes_first getTime) (dated getTime)
                comes_first_total comes_first_trans mine Hdated) as Hsorted.
  assert (Hin : forall x, In x (sort_by (comes_first getTime) mine)
                          <-> In x mine)
    by (intros x; apply sort_by_in).
  remember (sort_by (comes_first getTime) mine) as sorted eqn:Esorted.
  clear Esorted.
  split.
  { destruct (find (is_upcoming getTime now) sorted) as [a|] eqn:Ef.
    - split; [discriminate|]. intros E.
      apply find_some in Ef. destruct Ef as [Ha _].
      apply Hin in Ha. rewrite E in Ha. contradiction.
    - destruct sorted as [|x rest]; simpl.
      + split; [intros _ | reflexivity].
        destruct mine as [|y l]; [reflexivity|].
        exfalso. apply (proj2 (Hin y)). now left.
      + split; [discriminate|]. intros E.
        assert (H : In x mine) by (apply Hin; now left).
        rewrite E in H. contradiction. }
  split.
  { intros a. destruct (find (is_upcoming getTime now) sorted) as [b|] eqn:Ef.
    - intros [= <-]. apply find_some in Ef. apply Hin, Ef.
    - destruct sorted as [|x rest]; simpl; [discriminate|].
      intros [= <-]. apply Hin. now left. }
  split.
  { intros [c [Hc Hup]].
    destruct (find (is_upcoming getTime now) sorted) as [a|] eqn:Ef.
    2:{ apply Hin in Hc. rewrite (find_none _ _ Ef c Hc) in Hup.
        discriminate. }
    destruct (find_split _ _ _ Ef) as [l1 [l2 [Hsplit [Ha Hl1]]]].
    unfold is_upcoming in Ha. apply andb_true_iff in Ha.
    destruct Ha as [Hconf Ht].
    destruct (appointment_time getTime a) as [t|] eqn:Eta; [|discriminate].
    exists a, t. split; [reflexivity|]. split; [exact Hconf|].
    split; [exact Eta|]. split; [now apply Z.leb_le|].
    intros c' tc Hc' Hconf' Etc Hnow.
    apply Hin in Hc'. rewrite Hsplit in Hc', Hsorted.
    apply in_app_or in Hc'. destruct Hc' as [Hc' | Hc'].
    - specialize (Hl1 c' Hc'). unfold is_upcoming in Hl1.
      rewrite Hconf', Etc in Hl1. simpl in Hl1.
      apply Z.leb_gt in Hl1. lia.
    - destruct Hc' as [<- | Hc'].
      + rewrite Eta in Etc. injection Etc as <-. lia.
      + apply StronglySorted_app_inv in Hsorted.
        destruct Hsorted as [_ [Hs2 _]].
        inversion Hs2 as [|? ? _ Hall]; subst.
        rewrite Forall_forall in Hall. specialize (Hall c' Hc').
        unfold comes_first, compare_appointments in Hall.
        rewrite Hconf, Hconf', Eta, Etc in Hall. simpl in Hall.
        apply Z.leb_le in Hall. lia. }
  intros [c [Hc Hconf]].
  destruct (find (is_upcoming getTime now) sorted) as [a|] eqn:Ef.
  { exists a. split; [reflexivity|]. apply find_some in Ef.
    destruct Ef as [_ Ha]. unfold is_upcoming in Ha.
    apply andb_true_iff in Ha. tauto. }
  destruct sorted as [|x rest].
  { apply Hin in Hc. contradiction. }
  exists x. split; [reflexivity|].
  apply Hin in Hc. destruct Hc as [<- | Hc]; [exact Hconf|].
  inversion Hsorted as [|? ? _ Hall]; subst.
  rewrite Forall_forall in Hall. specialize (Hall c Hc).
  unfold comes_first, compare_appointments in Hall.
  rewrite Hconf in Hall.
  destruct (is_confirmed x); [reflexivity|]. simpl in Hall. discriminate.
Qed.
End DashboardFacts.

Lemma upcomingAppointment_earliest_witness :
  exists a,
    upcomingAppointment three_dates 200 (Some ("u1", "Jo")) appointments_of_jo
      = Some a
    /\ ApiAppointment.id a = "a2".
Proof.
  assert (Hdated : Forall (fun a => appointment_time three_dates a <> None)
                     (userAppointments (Some ("u1", "Jo"))
                        appointments_of_jo)).
  { repeat constructor; discriminate. }
  destruct (upcomingAppointment_earliest three_dates 200 (Some ("u1", "Jo"))
              appointments_of_jo Hdated) as [_ [_ [H _]]].
  destruct H as [a [t [Ha _]]].
  { exists (ApiAppointment.mk "a2" "u1" "Jo" "2026-01-12" (Some "10:00")
              "confirmed").
    split; [right; right; right; now left | reflexivity]. }
  exists a. split; [exact Ha|].
  vm_compute in Ha. now injection Ha as <-.
Defined.

(** ** Roles *)

Lemma has_role_app roles more user role :
  has_role (roles ++ more) user role
  = has_role roles user role || has_role more user role.
Proof. unfold has_role. apply existsb_app. Qed.

(** X18: a user who signs up is a patient and gets no other role.  When
    the trigger succeeds, the new user has the role patient, has the role
    doctor or admin only if a row already said so, and the roles of every
    other user are what they were; and the trigger succeeds for a user
    without profile and without role. *)
Theorem new_user_is_patient new_id full_name profiles user_roles :
  (forall profiles' roles',
     handle_new_user new_id full_name profiles user_roles
       = Some (profiles', roles') ->
     has_role roles' new_id role_patient = true
     /\ has_role roles' new_id role_doctor
        = has_role user_roles new_id role_doctor
     /\ has_role roles' new_id role_admin
        = has_role user_roles new_id role_admin
     /\ (forall other role, other <> new_id ->
           has_role roles' other role = has_role user_roles other role)
     /\ In (mk_profile new_id full_name) profiles')
  /\ ((forall p, In p profiles -> pf_id p <> new_id) ->
      (forall r, In r user_roles -> ur_user_id r <> new_id) ->
      exists profiles' roles',
        handle_new_user new_id full_name profiles user_roles
          = Some (profiles', roles')
        /\ has_role roles' new_id role_patient = true
        /\ has_role roles' new_id role_doctor = false
        /\ has_role roles' new_id role_admin = false).
Proof.
  assert (Hnew : forall role,
            has_role [mk_user_role new_id role_patient] new_id role
            = app_role_eqb role_patient role).
  { intros role. unfold has_role. simpl. rewrite Nat.eqb_refl.
    now rewrite orb_false_r. }
  assert (Hnone : (forall r, In r user_roles -> ur_user_id r <> new_id) ->
                  forall role, has_role user_roles new_id role = false).
  { intros H role. unfold has_role.
    induction user_roles as [|r rows IH]; [reflexivity|]. simpl.
    assert (E : (ur_user_id r =? new_id) = false)
      by (apply Nat.eqb_neq, H; now left).
    rewrite E. simpl. apply IH. intros x Hx. apply H. now right. }
  split.
  - intros profiles' roles'. unfold handle_new_user.
    destruct (existsb _ profiles); [discriminate|].
    destruct (has_role user_roles new_id role_patient); [discriminate|].
    intros [= <- <-]. rewrite !has_role_app, !Hnew. simpl.
    split; [apply orb_true_r|].
    split; [apply orb_false_r|]. split; [apply orb_false_r|].
    split.
    + intros other role Hne. rewrite has_role_app. unfold has_role at 2.
      simpl. apply Nat.eqb_neq in Hne. rewrite Nat.eqb_sym, Hne.
      simpl. apply orb_false_r.
    + apply in_or_app. right. now left.
  - intros Hp Hr. unfold handle_new_user.
    assert (E : existsb (fun p => pf_id p =? new_id) profiles = false).
    { induction profiles as [|p rows IH]; [reflexivity|]. simpl.
      assert (E : (pf_id p =? new_id) = false)
        by (apply Nat.eqb_neq, Hp; now left).
      rewrite E. simpl. apply IH. intros x Hx. apply Hp. now right. }
    rewrite E, (Hnone Hr role_patient).
    eexists. eexists. split; [reflexivity|].
    rewrite !has_role_app, !Hnew, !(Hnone Hr). auto.
Qed.

Lemma new_user_is_patient_witness :
  exists profiles' roles',
    handle_new_user 11 (Some "John Doe") []
      [mk_user_role 70 role_doctor] = Some (profiles', roles')
    /\ has_role roles' 11 role_patient = true
    /\ has_role roles' 11 role_admin = false.
Proof.
  destruct (new_user_is_patient 11 (Some "John Doe") []
              [mk_user_role 70 role_doctor]) as [_ H].
  destruct H as [profiles' [roles' [H1 [H2 [_ H4]]]]].
  - intros p [].
  - intros r [<- | []]. discriminate.
  - exists profiles', roles'. auto.
Defined.

(** ** The booking agent under the row policies *)





(** The user of the slot's doctor does write the flag. *)
Lemma book_appointment_as_doctor doctors user p d :
  (forall s, In s (appointment_slots d) -> Slot.id s = bk_slot_id p ->
             slot_writable doctors user s = true) ->
  book_appointment_as doctors user p d = book_appointment user p d.
Proof.
  intros H. unfold book_appointment_as, book_appointment.
  destruct (book_check (bk_slot_id p) d); [|reflexivity].
  unfold book_insert. cbn [fresh_uuid]. f_equal.
  unfold reserve_as, reserve, with_slots. simpl. f_equal.
  unfold update_where. apply map_ext_in. intros s Hs.
  destruct (Slot.id s =? bk_slot_id p) eqn:E; [|reflexivity].
  apply Nat.eqb_eq in E. now rewrite (H s Hs E).
Qed.

(** ** The reminder and questionnaire agents under the row policies *)

(** X20: under the row policies [schedule_reminder] stores no reminder for
    anyone.  A caller who is neither the patient nor the doctor of the
    appointment cannot see it and is answered 404; for the patient, and for
    the doctor, the insert into [reminders], a table with policies for
    reading only, is refused and the call is answered 500.  No call
    succeeds and none changes the store. *)
Theorem schedule_reminder_as_refused doctors policy_violation now user p d :
  success (fst (schedule_reminder_as doctors policy_violation now user p d)) = false
  /\ snd (schedule_reminder_as doctors policy_violation now user p d) = d
  /\ ((forall a, In a (appointments d) ->
         Appointment.id a = rm_appointment_id p ->
         appointment_visible doctors user a = false) ->
      schedule_reminder_as doctors policy_violation now user p d
      = (failure 404 "Appointment not found", d))
  /\ (forall a, appointment_ids_unique d -> In a (appointments d) ->
        Appointment.id a = rm_appointment_id p ->
        appointment_visible doctors user a = true ->
        schedule_reminder_as doctors policy_violation now user p d
        = (thrown (policy_violation "reminders"), d)).
Proof.
  unfold schedule_reminder_as.
  split; [destruct (single _); reflexivity|].
  split; [destruct (single _); reflexivity|].
  split.
  - intros H.
    replace (filter _ (appointments d)) with (@nil Appointment.t);
      [reflexivity|].
    symmetry. induction (appointments d) as [|a rows IH]; [reflexivity|].
    simpl. destruct (Appointment.id a =? rm_appointment_id p) eqn:E; simpl.
    + apply Nat.eqb_eq in E. rewrite (H a (or_introl eq_refl) E).
      apply IH. intros b Hb. apply H. now right.
    + apply IH. intros b Hb. apply H. now right.
  - intros a Hpk Hin Hid Hvis.
    assert (Hf : filter (fun b => (Appointment.id b =? rm_appointment_id p)
                                  && appointment_visible doctors user b)
                   (appointments d) = [a]).
    { rewrite filter_andb, <- Hid.
      rewrite (filter_by_id_unique (appointments d) a Hpk Hin).
      simpl. now rewrite Hvis. }
    now rewrite Hf.
Qed.

Lemma schedule_reminder_as_refused_witness :
  schedule_reminder_as two_doctors refused_by_policy
      noon_two_days_before 12
    remind_other_patient both_booked
    = (failure 404 "Appointment not found", both_booked)
  /\ schedule_reminder_as two_doctors refused_by_policy
      noon_two_days_before 11 remind_me
       both_booked
     = (thrown (refused_by_policy "reminders"), both_booked)
  /\ schedule_reminder_as two_doctors refused_by_policy
      noon_two_days_before 70 remind_me
       both_booked
     = (thrown (refused_by_policy "reminders"), both_booked).
Proof.
  destruct (schedule_reminder_as_refused two_doctors refused_by_policy
              noon_two_days_before 12
              remind_other_patient both_booked) as [_ [_ [H3 _]]].
  destruct (schedule_reminder_as_refused two_doctors refused_by_policy
              noon_two_days_before 11
              remind_me both_booked) as [_ [_ [_ H4]]].
  assert (Hpk : appointment_ids_unique both_booked).
  { unfold appointment_ids_unique. simpl.
    constructor; [intros [E | []]; discriminate|].
    constructor; [intros [] | constructor]. }
  split.
  - apply H3. intros a [<- | [<- | []]] Hid;
      [reflexivity | discriminate].
  - split; [|reflexivity].
    apply (H4 (Appointment.mk 100 11 7 1 "2026-01-10" "09:00:00" None
                              Appointment.confirmed) Hpk);
      [now left | reflexivity | reflexivity].
Defined.

(** ** The doctor chosen in the booking dialog *)

Lemma split_no_hyphen text :
  no_hyphen text = true -> split " - " text = [text].
Proof.
  unfold split. induction text as [|c rest IH]; [reflexivity|].
  simpl no_hyphen. intros H. apply andb_true_iff in H. destruct H as [Hc Hr].
  specialize (IH Hr).
  cbn [split_skip].
  assert (Hp : String.prefix " - " (String c rest) = false).
  { cbn [String.prefix].
    destruct (ascii_dec " " c) as [<- | _]; [|reflexivity].
    destruct rest as [|c2 rest2]; [reflexivity|].
    cbn [no_hyphen] in Hr. apply andb_true_iff in Hr. destruct Hr as [Hc2 _].
    cbn [String.prefix].
    destruct (ascii_dec "-" c2) as [<- | _]; [discriminate | reflexivity]. }
  rewrite Hp, IH. reflexivity.
Qed.

Lemma prefix_separator rest :
  String.prefix " - " (String.append " - " rest) = true.
Proof. destruct rest; reflexivity. Qed.

Lemma split_label name rest :
  no_hyphen name = true ->
  split " - " (String.append name (String.append " - " rest))
  = name :: split " - " rest.
Proof.
  unfold split. induction name as [|c name IH]; intros H.
  - cbn [String.append]. pose proof (prefix_separator rest) as Hp.
    cbn [String.append] in Hp. cbn [split_skip]. rewrite Hp. reflexivity.
  - simpl no_hyphen in H. apply andb_true_iff in H. destruct H as [Hc Hn].
    specialize (IH Hn). simpl String.append. cbn [split_skip].
    assert (Hp : String.prefix " - "
                   (String c (String.append name (String.append " - " rest)))
                 = false).
    { cbn [String.prefix].
      destruct (ascii_dec " " c) as [<- | _]; [|reflexivity].
      destruct name as [|c2 name2]; cbn [String.append].
      - reflexivity.
      - cbn [no_hyphen] in Hn. apply andb_true_iff in Hn.
        destruct Hn as [Hc2 _]. cbn [String.prefix].
        destruct (ascii_dec "-" c2) as [<- | _];
          [discriminate | reflexivity]. }
    cbn [String.append] in Hp |- *. rewrite Hp.
    cbn [String.append] in IH. rewrite IH. reflexivity.
Qed.

(** X22: the doctor shown in the booking dialog can be read back.  For a
    listed slot whose doctor name and specialty contain no hyphen, choosing
    the label of its doctor and its time makes [handleSubmit] find a slot of
    the list with that doctor name and that time, and send the slot's
    specialty ("General" when it has none): "Selected slot not found" does
    not occur. *)
Theorem chosen_slot_found slots s :
  In s slots ->
  no_hyphen (ApiSlot.doctor_name s) = true ->
  no_hyphen (or_else (ApiSlot.specialty s) "General") = true ->
  split " - " (doctor_label s)
    = [ApiSlot.doctor_name s; or_else (ApiSlot.specialty s) "General"]
  /\ chosen_specialty (doctor_label s)
     = or_else (ApiSlot.specialty s) "General"
  /\ exists found,
       chosen_slot slots (doctor_label s) (ApiSlot.time s) = Some found
       /\ In found slots
       /\ ApiSlot.doctor_name found = ApiSlot.doctor_name s
       /\ ApiSlot.time found = ApiSlot.time s.
Proof.
  intros Hin Hname Hspec.
  assert (Hsplit : split " - " (doctor_label s)
            = [ApiSlot.doctor_name s; or_else (ApiSlot.specialty s) "General"]).
  { unfold doctor_label. rewrite (split_label _ _ Hname).
    now rewrite (split_no_hyphen _ Hspec). }
  split; [exact Hsplit|].
  split.
  { unfold chosen_specialty. rewrite Hsplit.
    unfold or_else at 1. unfold truthy.
    destruct (String.eqb_spec (or_else (ApiSlot.specialty s) "General") "")
      as [E | _]; [|reflexivity].
    exfalso. revert E. apply or_else_nonempty. discriminate. }
  unfold chosen_slot. rewrite Hsplit.
  destruct (find _ slots) as [found|] eqn:Ef.
  - exists found. split; [reflexivity|].
    apply find_some in Ef. destruct Ef as [Hf Hb].
    apply andb_true_iff in Hb. destruct Hb as [H1 H2].
    apply String.eqb_eq in H1. apply String.eqb_eq in H2. auto.
  - exfalso. pose proof (find_none _ _ Ef s Hin) as Hn. simpl in Hn.
    now rewrite !String.eqb_refl in Hn.
Qed.

Lemma chosen_slot_found_witness :
  exists found,
    chosen_slot listed_slots "Dr. Ada Park - Cardiologist" "10:00 AM"
      = Some found
    /\ ApiSlot.is_available found = Some false
    /\ chosen_slot listed_slots "Dr. Lee - Ortho - General" "9:00 AM" = None.
Proof.
  destruct (chosen_slot_found listed_slots
              (ApiSlot.mk (Some "d1") "Dr. Ada Park" (Some "Cardiologist")
                          "2026-01-10" "10:00 AM" (Some false)))
    as [_ [_ [found [Hf _]]]];
    [right; now left | reflexivity | reflexivity |].
  exists found. split; [exact Hf|].
  vm_compute in Hf. injection Hf as <-. split; reflexivity.
Defined.

(** ** The times offered in the booking dialog *)

Lemma first_occurrences_in seen texts x :
  In x (first_occurrences seen texts) <-> In x texts /\ ~ In x seen.
Proof.
  revert seen. induction texts as [|y rest IH]; intros seen; simpl.
  - tauto.
  - destruct (existsb (String.eqb y) seen) eqn:E.
    + rewrite IH. apply existsb_exists in E. destruct E as [z [Hz Hyz]].
      apply String.eqb_eq in Hyz. subst z.
      split; [tauto|]. intros [[-> | H] Hn]; [contradiction | tauto].
    + simpl. rewrite IH. simpl.
      assert (Hy : ~ In y seen).
      { intros Hin. apply not_true_iff_false in E. apply E.
        apply existsb_exists. exists y. split; [exact Hin|].
        apply String.eqb_refl. }
      split.
      * intros [-> | [Hin Hn]]; [tauto|]. split; [tauto|]. tauto.
      * intros [[-> | Hin] Hn]; [tauto|].
        destruct (string_dec y x) as [-> | Hne]; [tauto|].
        right. split; [exact Hin|]. intros [H | H]; [congruence | tauto].
Qed.

Lemma first_occurrences_NoDup seen texts :
  NoDup (first_occurrences seen texts).
Proof.
  revert seen. induction texts as [|y rest IH]; intros seen; simpl.
  - constructor.
  - destruct (existsb (String.eqb y) seen); [apply IH|].
    constructor; [|apply IH].
    rewrite first_occurrences_in. simpl. tauto.
Qed.

Lemma sorted_strict texts :
  NoDup texts ->
  StronglySorted (fun a b => String.leb a b = true) texts ->
  StronglySorted (fun a b => String.ltb a b = true) texts.
Proof.
  induction 2 as [|x rest Hs IH Hall]; constructor.
  - apply IH. now inversion H.
  - inversion H as [|? ? Hx _]; subst. rewrite Forall_forall in *.
    intros y Hy. specialize (Hall y Hy).
    apply string_leb_cases in Hall. destruct Hall as [Hlt | ->].
    + now apply string_ltb_lt.
    + contradiction.
Qed.

(** X23: the times offered in the booking dialog.  Each time is that of a
    listed slot of the chosen doctor on the chosen date (of any slot while no
    doctor is chosen), every such time is offered, and the times stand in
    strictly ascending text order, so none is offered twice. *)
Theorem availableTimes_offered slots doctor date :
  StronglySorted (fun a b => String.ltb a b = true)
    (availableTimes slots doctor date)
  /\ forall t,
       In t (availableTimes slots doctor date) <->
       exists slot,
         In slot slots /\ ApiSlot.time slot = t
         /\ (doctor = ""
             \/ hd_error (split " - " doctor) = Some (ApiSlot.doctor_name slot)
                /\ forall d, date = Some d -> ApiSlot.date slot = d).
Proof.
  unfold availableTimes. split.
  - apply sorted_strict.
    + eapply Permutation_NoDup;
        [apply Permutation_sym, sort_by_perm | apply first_occurrences_NoDup].
    + apply sort_by_sorted.
      * intros x y. destruct (String.leb_total x y); auto.
      * apply string_leb_trans.
  - intros t. rewrite sort_by_in, first_occurrences_in, in_map_iff.
    split.
    + intros [[slot [Ht Hin]] _]. apply filter_In in Hin.
      destruct Hin as [Hin Hb]. exists slot. split; [exact Hin|].
      split; [exact Ht|].
      destruct (String.eqb_spec doctor "") as [E | _]; [now left | right].
      destruct (split " - " doctor) as [|doctorName pieces];
        [discriminate|].
      apply andb_true_iff in Hb. destruct Hb as [Hd Hdate].
      apply String.eqb_eq in Hd. split; [simpl; congruence|].
      intros d ->. now apply String.eqb_eq in Hdate.
    + intros [slot [Hin [Ht Hsel]]]. split; [|tauto].
      exists slot. split; [exact Ht|]. apply filter_In.
      split; [exact Hin|].
      destruct (String.eqb_spec doctor "") as [E | Hne]; [reflexivity|].
      destruct Hsel as [E | [Hhd Hdate]]; [contradiction|].
      destruct (split " - " doctor) as [|doctorName pieces];
        [discriminate|].
      simpl in Hhd. injection Hhd as ->. rewrite String.eqb_refl. simpl.
      destruct date as [d|]; [|reflexivity].
      apply String.eqb_eq. now apply Hdate.
Qed.

(** ** The day sent with a booking *)

Lemma length_append (a b : string) :
  String.length (String.append a b) = String.length a + String.length b.
Proof. induction a as [|c a IH]; simpl; [reflexivity | now rewrite IH]. Qed.

Lemma compare_append (a a' b b' : string) :
  String.length a = String.length a' ->
  String.compare (String.append a b) (String.append a' b')
  = match String.compare a a' with
    | Eq => String.compare b b'
    | r => r
    end.
Proof.
  revert a'. induction a as [|c a IH]; intros [|c' a'] Hlen;
    try discriminate; [reflexivity|].
  simpl. destruct (Ascii.compare c c'); try reflexivity.
  apply IH. now injection Hlen.
Qed.

Lemma two_digits_checked :
  forallb (fun a =>
    (String.length (padStart 2 "0" (decimal a)) =? 2)
    && forallb (fun b =>
         match String.compare (padStart 2 "0" (decimal a))
                              (padStart 2 "0" (decimal b)),
               Nat.compare a b with
         | Eq, Eq | Lt, Lt | Gt, Gt => true
         | _, _ => false
         end) (seq 0 100)) (seq 0 100) = true.
Proof. vm_compute. reflexivity. Qed.

Lemma two_digits_length a :
  a < 100 -> String.length (padStart 2 "0" (decimal a)) = 2.
Proof.
  intros Ha. pose proof two_digits_checked as H.
  rewrite forallb_forall in H. specialize (H a).
  assert (Hin : In a (seq 0 100)) by (apply in_seq; lia).
  apply H in Hin. apply andb_true_iff in Hin. destruct Hin as [Hl _].
  now apply Nat.eqb_eq in Hl.
Qed.

Lemma two_digits_compare a b :
  a < 100 -> b < 100 ->
  String.compare (padStart 2 "0" (decimal a)) (padStart 2 "0" (decimal b))
  = Nat.compare a b.
Proof.
  intros Ha Hb. pose proof two_digits_checked as H.
  rewrite forallb_forall in H. specialize (H a).
  assert (Hin : In a (seq 0 100)) by (apply in_seq; lia).
  apply H in Hin. apply andb_true_iff in Hin. destruct Hin as [_ Hc].
  rewrite forallb_forall in Hc. specialize (Hc b).
  assert (Hinb : In b (seq 0 100)) by (apply in_seq; lia).
  apply Hc in Hinb.
  destruct (String.compare _ _), (Nat.compare a b);
    try reflexivity; discriminate.
Qed.

Lemma four_digits_checked :
  forallb (fun y =>
    String.eqb (decimal y)
      (String.append (padStart 2 "0" (decimal (y / 100)))
                     (padStart 2 "0" (decimal (y mod 100)))))
    (seq 1000 (9 * 1000)) = true.
Proof. vm_compute. reflexivity. Qed.

Lemma four_digits y :
  1000 <= y < 10 * 1000 ->
  decimal y
  = String.append (padStart 2 "0" (decimal (y / 100)))
                  (padStart 2 "0" (decimal (y mod 100))).
Proof.
  intros Hy. pose proof four_digits_checked as H.
  rewrite forallb_forall in H. apply String.eqb_eq. apply H.
  apply in_seq. lia.
Qed.

Lemma compare_hundreds h1 l1 h2 l2 :
  l1 < 100 -> l2 < 100 ->
  match Nat.compare h1 h2 with
  | Eq => Nat.compare l1 l2
  | r => r
  end = Nat.compare (100 * h1 + l1) (100 * h2 + l2).
Proof.
  intros H1 H2. symmetry.
  destruct (Nat.compare_spec h1 h2) as [-> | Hlt | Hgt].
  - destruct (Nat.compare_spec l1 l2) as [-> | Hl | Hl].
    + apply Nat.compare_refl.
    + apply Nat.compare_lt_iff. lia.
    + apply Nat.compare_gt_iff. lia.
  - apply Nat.compare_lt_iff. lia.
  - apply Nat.compare_gt_iff. lia.
Qed.

Lemma year_compare y1 y2 :
  1000 <= y1 < 10 * 1000 -> 1000 <= y2 < 10 * 1000 ->
  String.length (decimal y1) = String.length (decimal y2)
  /\ String.length (decimal y1) = 4
  /\ String.compare (decimal y1) (decimal y2) = Nat.compare y1 y2.
Proof.
  intros H1 H2.
  assert (Hd : forall y, 1000 <= y < 10 * 1000 ->
                 y / 100 < 100 /\ y mod 100 < 100).
  { intros y Hy. split.
    - apply Nat.Div0.div_lt_upper_bound. lia.
    - apply Nat.mod_upper_bound. lia. }
  destruct (Hd y1 H1) as [Hh1 Hl1]. destruct (Hd y2 H2) as [Hh2 Hl2].
  assert (Hlen : forall y, 1000 <= y < 10 * 1000 ->
                   String.length (decimal y) = 4).
  { intros y Hy. destruct (Hd y Hy) as [Hh Hl].
    rewrite (four_digits y Hy), length_append,
      !two_digits_length by assumption. reflexivity. }
  split; [now rewrite !Hlen|]. split; [now apply Hlen|].
  rewrite (four_digits y1 H1), (four_digits y2 H2).
  rewrite compare_append by now rewrite !two_digits_length.
  rewrite !two_digits_compare by assumption.
  rewrite compare_hundreds by assumption.
  now rewrite <- !Nat.div_mod_eq.
Qed.

(** X24: the day sent with a booking orders like the calendar.  For years
    of four digits the text has ten characters, and comparing two such texts
    gives what comparing the years, then the months, then the days of the
    month gives. *)
Theorem dateString_compare y1 m1 d1 y2 m2 d2 :
  1000 <= y1 < 10 * 1000 -> 1000 <= y2 < 10 * 1000 ->
  m1 < 12 -> m2 < 12 -> d1 <= 31 -> d2 <= 31 ->
  String.length (dateString y1 m1 d1) = 10
  /\ String.compare (dateString y1 m1 d1) (dateString y2 m2 d2)
     = match Nat.compare y1 y2 with
       | Eq => match Nat.compare m1 m2 with
               | Eq => Nat.compare d1 d2
               | r => r
               end
       | r => r
       end.
Proof.
  intros Hy1 Hy2 Hm1 Hm2 Hd1 Hd2.
  destruct (year_compare y1 y2 Hy1 Hy2) as [Hlen [Hfour Hcmp]].
  unfold dateString. split.
  - rewrite !length_append, Hfour, !two_digits_length by lia.
    reflexivity.
  - rewrite compare_append by exact Hlen. rewrite Hcmp.
    destruct (Nat.compare y1 y2); try reflexivity.
    rewrite (compare_append "-" "-") by reflexivity.
    cbn [String.compare Ascii.compare].
    change (String.compare "-" "-") with Eq. cbv iota.
    rewrite compare_append by now rewrite !two_digits_length by lia.
    rewrite two_digits_compare by lia.
    replace (Nat.compare (m1 + 1) (m2 + 1)) with (Nat.compare m1 m2)
      by (rewrite !Nat.add_1_r; symmetry; apply Nat.compare_succ).
    destruct (Nat.compare m1 m2); try reflexivity.
    rewrite (compare_append "-" "-") by reflexivity.
    change (String.compare "-" "-") with Eq. cbv iota.
    apply two_digits_compare; lia.
Qed.

Lemma dateString_compare_witness :
  dateString 2026 0 9 = "2026-01-09"
  /\ String.compare (dateString 2026 0 9) (dateString 2025 11 31) = Gt.
Proof.
  split; [reflexivity|].
  destruct (dateString_compare 2026 0 9 2025 11 31) as [_ H];
    [lia | lia | lia | lia | lia | lia |].
  rewrite H. reflexivity.
Defined.

(** * The handlers as the caller, under the row policies and keys *)




(** ** [cancel_appointment] *)





(** ** Callers that do not own the appointment *)

(** C5 as stated fails: patient 12 is neither the patient nor the doctor of
    appointment 100; the reschedule, the cancellation and the reminder are
    refused and change nothing, but with the 404 "Appointment not found"
    failure, not with Forbidden. *)
Lemma stranger_not_forbidden :
  map Appointment.patient_id (appointments both_booked) = [11; 12]
  /\ reschedule_appointment_as two_doctors refused_by_key 12 move_to_slot_ten
       both_booked
     = (failure 404 "Appointment not found", both_booked)
  /\ cancel_appointment_as two_doctors 12 100 both_booked
     = (failure 404 "Appointment not found", both_booked)
  /\ schedule_reminder_as two_doctors refused_by_policy noon_two_days_before
       12 remind_other_patient both_booked
     = (failure 404 "Appointment not found", both_booked)
  /\ error_of (failure 404 "Appointment not found") <> Some Forbidden.
Proof.
  vm_compute. repeat split; try reflexivity; discriminate.
Qed.

(** C5, amended: a caller who is not the patient of the appointment gets
    the "Appointment not found" failure (status 404) from
    [reschedule_appointment] and from [cancel_appointment], and so does from
    [schedule_reminder] a caller who is neither its patient nor the user of
    its doctor; the store is unchanged.  The handlers have no Forbidden
    answer and no administrative override. *)
Theorem stranger_gets_not_found doctors policy_violation key_violation
    now user appointment_id p q d :
  rs_appointment_id p = appointment_id ->
  rm_appointment_id q = appointment_id ->
  (forall a, In a (appointments d) -> Appointment.id a = appointment_id ->
             Appointment.patient_id a <> user) ->
  reschedule_appointment_as doctors key_violation user p d
    = (failure 404 "Appointment not found", d)
  /\ cancel_appointment_as doctors user appointment_id d
     = (failure 404 "Appointment not found", d)
  /\ ((forall a, In a (appointments d) -> Appointment.id a = appointment_id ->
         is_doctor doctors user (Appointment.doctor_id a) = false) ->
      schedule_reminder_as doctors policy_violation now user q d
      = (failure 404 "Appointment not found", d))
  /\ error_of (failure 404 "Appointment not found")
     = Some AppointmentNotFound.
Proof.
  intros Hp Hq H. pose proof (owned_appointment_None _ _ _ H) as Hnone.
  split.
  { unfold reschedule_appointment_as. now rewrite Hp, Hnone. }
  split.
  { unfold cancel_appointment_as. now rewrite Hnone. }
  split; [|reflexivity].
  intros Hdoc. unfold schedule_reminder_as. rewrite Hq.
  replace (filter _ (appointments d)) with (@nil Appointment.t);
    [reflexivity|].
  symmetry. clear Hnone.
  induction (appointments d) as [|a rows IH]; [reflexivity|].
  simpl. destruct (Appointment.id a =? appointment_id) eqn:E; simpl.
  - apply Nat.eqb_eq in E.
    assert (Hv : appointment_visible doctors user a = false).
    { unfold appointment_visible.
      rewrite (Hdoc a (or_introl eq_refl) E).
      destruct (Nat.eqb_spec user (Appointment.patient_id a)) as [Eu | _];
        [|reflexivity].
      exfalso. apply (H a (or_introl eq_refl) E). now symmetry. }
    rewrite Hv. apply IH.
    + intros b Hb. apply H. now right.
    + intros b Hb. apply Hdoc. now right.
  - apply IH.
    + intros b Hb. apply H. now right.
    + intros b Hb. apply Hdoc. now right.
Qed.

Lemma stranger_gets_not_found_witness :
  reschedule_appointment_as two_doctors refused_by_key 12 move_to_slot_ten
    both_booked
    = (failure 404 "Appointment not found", both_booked)
  /\ cancel_appointment_as two_doctors 12 100 both_booked
     = (failure 404 "Appointment not found", both_booked)
  /\ schedule_reminder_as two_doctors refused_by_policy noon_two_days_before
       12 remind_other_patient both_booked
     = (failure 404 "Appointment not found", both_booked).
Proof.
  assert (H : forall a, In a (appointments both_booked) ->
                Appointment.id a = 100 -> Appointment.patient_id a <> 12).
  { intros a Hin Hid. vm_compute in Hin.
    destruct Hin as [<- | [<- | []]]; vm_compute in Hid |- *;
      [intros E | ]; discriminate. }
  destruct (stranger_gets_not_found two_doctors refused_by_policy
              refused_by_key noon_two_days_before 12 100 move_to_slot_ten
              remind_other_patient both_booked eq_refl eq_refl H)
    as [H1 [H2 [H3 _]]].
  split; [exact H1|]. split; [exact H2|].
  apply H3. intros a Hin Hid. vm_compute in Hin.
  destruct Hin as [<- | [<- | []]]; [reflexivity | discriminate].
Defined.

(** ** Freeing the slot *)

Lemma release_as_twice doctors uid slot_id d :
  release_as doctors uid slot_id (release_as doctors uid slot_id d)
  = release_as doctors uid slot_id d.
Proof.
  unfold release_as, with_slots. cbn [appointment_slots appointments
    reminders questionnaire_responses next_uuid].
  f_equal. apply update_where_idempotent; intros []; reflexivity.
Qed.

(** C7, on the code: appointment 100 of patient 11 holds slot 1, which is
    marked unavailable.  The patient cancels twice.  Both calls return
    success, and the second changes nothing; but the flag of the slot, which
    only the user of its doctor may write, stays false after both, and the
    slot of the cancelled appointment cannot be booked again. *)
Theorem release_by_patient_frees_nothing :
  let once := cancel_appointment_as two_doctors 11 100 both_booked in
  let twice := cancel_appointment_as two_doctors 11 100 (snd once) in
  map Slot.is_available (appointment_slots both_booked) = [false; false]
  /\ slot_writable two_doctors 11 slot_nine = false
  /\ fst once = ok (BMessage "Appointment cancelled")
  /\ fst twice = ok (BMessage "Appointment cancelled")
  /\ snd twice = snd once
  /\ map Appointment.status (appointments (snd twice))
     = [Appointment.cancelled; Appointment.confirmed]
  /\ map Slot.is_available (appointment_slots (snd once)) = [false; false]
  /\ map Slot.is_available (appointment_slots (snd twice)) = [false; false]
  /\ fst (book_appointment_as two_doctors 12 wants_slot_nine (snd twice))
     = failure 400 "Slot no longer available".
Proof.
  vm_compute. repeat split; reflexivity.
Qed.

(** ** [submit_response] *)

Lemma submit_response_as_fresh questionnaires policy_violation key_violation
    user p d a :
  owned_appointment user (sb_appointment_id p) d = Some a ->
  existsb (fun q => String.eqb (Questionnaire.id q)
                      (or_else (sb_questionnaire_id p) "default"))
          questionnaires = true ->
  filter (conflict_key (sb_appointment_id p)
            (or_else (sb_questionnaire_id p) "default"))
         (questionnaire_responses d) = [] ->
  submit_response_as questionnaires policy_violation key_violation user p d
  = submit_response user p d.
Proof.
  intros Howned Hq Hnone. unfold submit_response_as, submit_response.
  rewrite Howned, Hq. cbn [negb].
  destruct (existsb (conflict_key (sb_appointment_id p)
                       (or_else (sb_questionnaire_id p) "default"))
              (questionnaire_responses d)) eqn:E; [|reflexivity].
  apply existsb_true_filter in E. contradiction.
Qed.


(** C8, on the code: patient 11 submits answers for appointment 100 and the
    stored questionnaire, then submits other answers for the same pair.  The
    first call stores its answers.  The second is the update arm of the
    upsert, which no policy of [questionnaire_responses] admits: it is
    answered with the error (status 500) and the one stored response keeps
    the answers of the first.  Were the statements of the handler all
    admitted, the stored response would carry the answers of the second. *)
Theorem second_submission_refused :
  let first :=
    submit_response_as [intake] refused_by_policy refused_by_key
      11 first_intake_answers both_booked in
  let second :=
    submit_response_as [intake] refused_by_policy refused_by_key
      11 second_intake_answers (snd first) in
  success (fst first) = true
  /\ fst second = thrown (refused_by_policy "questionnaire_responses")
  /\ error_of (fst second) = Some InternalError
  /\ map QuestionnaireResponse.responses (questionnaire_responses (snd second))
     = [sb_responses first_intake_answers]
  /\ sb_responses first_intake_answers <> sb_responses second_intake_answers
  /\ map QuestionnaireResponse.responses
       (questionnaire_responses
          (snd (submit_response 11 second_intake_answers
                  (snd (submit_response 11 first_intake_answers
                          both_booked)))))
     = [sb_responses second_intake_answers].
Proof.
  vm_compute. repeat split; try reflexivity. discriminate.
Qed.

(** ** [schedule_reminder] *)


(** ** [reschedule_appointment] *)





(** ** [submit_response] and [get_responses] *)

(** X21: under the policies answers cannot be edited.  The first submission
    by the patient of the appointment for a stored questionnaire stores the
    answers; a second one for the same appointment and questionnaire is
    refused with an error, [questionnaire_responses] having no policy for
    updates, and the store keeps the answers of the first. *)
Theorem submit_response_as_once questionnaires policy_violation key_violation
    user p1 p2 d a :
  owned_appointment user (sb_appointment_id p1) d = Some a ->
  existsb (fun q => String.eqb (Questionnaire.id q)
                      (or_else (sb_questionnaire_id p1) "default"))
          questionnaires = true ->
  filter (conflict_key (sb_appointment_id p1)
            (or_else (sb_questionnaire_id p1) "default"))
         (questionnaire_responses d) = [] ->
  sb_appointment_id p1 = sb_appointment_id p2 ->
  or_else (sb_questionnaire_id p1) "default"
    = or_else (sb_questionnaire_id p2) "default" ->
  let first :=
    submit_response_as questionnaires policy_violation key_violation
                       user p1 d in
  let second :=
    submit_response_as questionnaires policy_violation key_violation
                       user p2 (snd first) in
  success (fst first) = true
  /\ second = (thrown (policy_violation "questionnaire_responses"), snd first)
  /\ exists row,
       filter (conflict_key (sb_appointment_id p1)
                 (or_else (sb_questionnaire_id p1) "default"))
              (questionnaire_responses (snd second)) = [row]
       /\ QuestionnaireResponse.responses row = sb_responses p1
       /\ QuestionnaireResponse.patient_id row = user.
Proof.
  intros Howned Hq Hnone Ea Eq first second.
  assert (Hfirst : first = submit_response user p1 d)
    by (subst first; now apply (submit_response_as_fresh _ _ _ _ _ _ a)).
  assert (Hle : List.length
                  (filter (conflict_key (sb_appointment_id p1)
                             (or_else (sb_questionnaire_id p1) "default"))
                     (questionnaire_responses d)) <= 1)
    by (rewrite Hnone; simpl; lia).
  destruct (submit_response_stores user p1 d a Howned Hle)
    as [row [Hr [Hf [Ha Hp]]]].
  rewrite <- Hfirst in Hr, Hf.
  assert (Hsecond : second
            = (thrown (policy_violation "questionnaire_responses"),
               snd first)).
  { subst second. unfold submit_response_as.
    assert (Ho : owned_appointment user (sb_appointment_id p2) (snd first)
                 = Some a).
    { rewrite <- Ea, <- Howned. apply owned_appointment_same.
      rewrite Hfirst. apply submit_response_appointments. }
    rewrite Ho, <- Ea, <- Eq, Hq. cbn [negb].
    assert (Hex2 : existsb (conflict_key (sb_appointment_id p1)
                              (or_else (sb_questionnaire_id p1) "default"))
                     (questionnaire_responses (snd first)) = true).
    { destruct (existsb (conflict_key (sb_appointment_id p1)
                           (or_else (sb_questionnaire_id p1) "default"))
                  (questionnaire_responses (snd first))) eqn:E;
        [reflexivity|].
      apply existsb_false_filter in E. rewrite Hf in E. discriminate. }
    now rewrite Hex2. }
  split; [now rewrite Hr|]. split; [exact Hsecond|].
  exists row. rewrite Hsecond. cbn [snd]. auto.
Qed.

Lemma submit_response_as_once_witness :
  fst (submit_response_as [intake] refused_by_policy refused_by_key 11
         second_intake_answers
         (snd (submit_response_as [intake] refused_by_policy refused_by_key
                 11 first_intake_answers both_booked)))
  = thrown (refused_by_policy "questionnaire_responses")
  /\ map QuestionnaireResponse.responses
       (questionnaire_responses
          (snd (submit_response_as [intake] refused_by_policy refused_by_key
                  11 second_intake_answers
                  (snd (submit_response_as [intake] refused_by_policy
                          refused_by_key 11 first_intake_answers
                          both_booked)))))
     = [[("q1", "Headache"); ("q3", "None")]].
Proof.
  destruct (submit_response_as_once [intake] refused_by_policy refused_by_key
              11 first_intake_answers second_intake_answers both_booked
              (Appointment.mk 100 11 7 1 "2026-01-10" "09:00:00" None
                              Appointment.confirmed)
              eq_refl eq_refl eq_refl eq_refl eq_refl) as [_ [H2 _]].
  rewrite H2. split; reflexivity.
Defined.

Lemma default_is_no_uuid : is_uuid "default" = false.
Proof. reflexivity. Qed.

(** X27: the questionnaire "default" cannot be answered.  The ids of the
    stored questionnaires being UUIDs, a submission that names no
    questionnaire, or names the id "default" that [get_questionnaire] serves
    when no questionnaire is active, is refused for the patient of the
    appointment: the handler sends "default", which references no
    questionnaire, and answers with the error; nothing is stored. *)
Theorem default_questionnaire_refused questionnaires policy_violation
    key_violation user p d a :
  questionnaire_ids_are_uuids questionnaires ->
  owned_appointment user (sb_appointment_id p) d = Some a ->
  truthy (sb_questionnaire_id p) = None
  \/ sb_questionnaire_id p = Some (Questionnaire.id default_questionnaire) ->
  submit_response_as questionnaires policy_violation key_violation user p d
  = (thrown (key_violation "questionnaire_responses_questionnaire_id_fkey"),
     d).
Proof.
  intros Hids Howned Hdefault. unfold submit_response_as. rewrite Howned.
  assert (Eq : or_else (sb_questionnaire_id p) "default" = "default").
  { unfold or_else. destruct Hdefault as [-> | ->]; reflexivity. }
  rewrite Eq.
  assert (Hno : existsb (fun q => String.eqb (Questionnaire.id q) "default")
                        questionnaires = false).
  { destruct (existsb _ questionnaires) eqn:E; [|reflexivity].
    apply existsb_exists in E. destruct E as [q [Hq Eid]].
    apply String.eqb_eq in Eid. specialize (Hids q Hq).
    rewrite Eid in Hids. discriminate. }
  now rewrite Hno.
Qed.

Lemma default_questionnaire_refused_witness :
  get_questionnaire [] None = Listed (LQuestionnaire default_questionnaire)
  /\ submit_response_as [intake] refused_by_policy refused_by_key 11
       first_answers both_booked
     = (thrown (refused_by_key
                  "questionnaire_responses_questionnaire_id_fkey"),
        both_booked).
Proof.
  split; [reflexivity|].
  apply (default_questionnaire_refused [intake] refused_by_policy
           refused_by_key 11 first_answers both_booked
           (Appointment.mk 100 11 7 1 "2026-01-10" "09:00:00" None
                           Appointment.confirmed)).
  - intros q [<- | []]. reflexivity.
  - reflexivity.
  - now left.
Defined.



(** ** [get_reminders] and [get_reminder_logs] *)





(** * The slot the orchestrator selects *)










